(** * NephoScale compute driver: a shallow embedding and its properties

    Source: [libcloud/compute/drivers/nephoscale.py].

    The driver is dynamically typed Python talking to a JSON API.  The
    embedding keeps that shape: wire data are values of [pyval], dictionaries
    are finite maps, exceptions are values of [exn] carried by [result], and
    the methods that talk to the provider are computations in a state monad
    over the connection and a trace of the requests and sleeps performed. *)

From Stdlib Require Import ZArith String Ascii List Sorted Permutation Lia.
From stdpp Require Import base option gmap strings pretty list.

Set Warnings "-register-all".
Local Open Scope string_scope.
Local Open Scope Z_scope.

(** ** Python values, exceptions and the builtins the driver relies on *)

(** What [json.loads] produces; numbers are restricted to integers. *)
Inductive pyval :=
| PyNone
| PyBool (b : bool)
| PyInt (z : Z)
| PyStr (s : string)
| PyList (l : list pyval)
| PyDict (d : gmap string pyval).

(** The exceptions that can travel through the driver.  [ExceptionFmt fmt e]
    stands for [Exception(fmt % e)]: the message is kept as the format and
    the exception it was rendered from. *)
Inductive exn :=
| InvalidCredsError (value : string)
| Exception (arg : pyval)
| ExceptionFmt (fmt : string) (cause : exn)
| AttributeError (attr : string)
| TypeError (what : string)
| KeyError (key : string).

Inductive result (A : Type) :=
| Ok (a : A)
| Raise (e : exn).
Arguments Ok {A} a.
Arguments Raise {A} e.

#[global] Instance result_ret : MRet result := fun A a => Ok a.
#[global] Instance result_bind : MBind result := fun A B f m =>
  match m with
  | Ok a => f a
  | Raise e => Raise e
  end.

(** [try: body / except Exception: handler(e)] on a pure computation. *)
Definition try_except {A} (body : result A) (handler : exn -> result A) : result A :=
  match body with
  | Ok a => Ok a
  | Raise e => handler e
  end.

Fixpoint mapM_result {A B} (f : A -> result B) (l : list A) : result (list B) :=
  match l with
  | [] => Ok []
  | x :: l' => y ← f x; ys ← mapM_result f l'; Ok (y :: ys)
  end.

Fixpoint filterM_result {A} (p : A -> result bool) (l : list A) : result (list A) :=
  match l with
  | [] => Ok []
  | x :: l' =>
      b ← p x; ys ← filterM_result p l'; Ok (if b : bool then x :: ys else ys)
  end.

Module Py.

(** [bool(v)]. *)
Definition truthy (v : pyval) : bool :=
  match v with
  | PyNone => false
  | PyBool b => b
  | PyInt z => negb (z =? 0)
  | PyStr s => match s with EmptyString => false | String _ _ => true end
  | PyList l => match l with [] => false | _ :: _ => true end
  | PyDict d => match map_to_list d with [] => false | _ :: _ => true end
  end.

(** [v.get(key, default)]: only dictionaries have the method. *)
Definition get (v : pyval) (key : string) (dflt : pyval) : result pyval :=
  match v with
  | PyDict d => Ok (default dflt (d !! key))
  | _ => Raise (AttributeError "get")
  end.

(** [for x in v]: the elements the loop visits. *)
Definition iter (v : pyval) : result (list pyval) :=
  match v with
  | PyList l => Ok l
  | PyDict d => Ok (PyStr <$> (map_to_list d).*1)
  | PyStr s => Ok ((fun c => PyStr (String c EmptyString)) <$> list_ascii_of_string s)
  | PyNone | PyBool _ | PyInt _ => Raise (TypeError "not iterable")
  end.

(** [v == n] for an integer [n]. *)
Definition eq_int (v : pyval) (n : Z) : bool :=
  match v with
  | PyInt z => z =? n
  | PyBool b => Z.b2z b =? n
  | _ => false
  end.

(** [v == s] for a string [s]. *)
Definition eq_str (v : pyval) (s : string) : bool :=
  match v with
  | PyStr s' => String.eqb s' s
  | _ => false
  end.

(** [v in codes] for a list of integers. *)
Definition in_ints (v : pyval) (codes : list Z) : bool :=
  existsb (eq_int v) codes.

(** [s.split(sep)] for a one-character separator. *)
Fixpoint split (sep : ascii) (s : string) : list string :=
  match s with
  | EmptyString => [EmptyString]
  | String c s' =>
      if Ascii.eqb c sep then EmptyString :: split sep s'
      else match split sep s' with
           | [] => [String c EmptyString]
           | t :: ts => String c t :: ts
           end
  end.

(** [s.replace(c, '')] for a one-character [c]. *)
Fixpoint remove_char (c : ascii) (s : string) : string :=
  match s with
  | EmptyString => EmptyString
  | String c' s' => if Ascii.eqb c' c then remove_char c s' else String c' (remove_char c s')
  end.

(** [s.startswith(p)]. *)
Definition startswith (s p : string) : bool := String.prefix p s.

Section Sorted.
Context {A K : Type} (lt : K -> K -> bool) (key : A -> K).

(** [sorted(l, key=key)] is a stable sort that compares keys with [<]
    only.  [insert x l] puts [x] in front of the first element it does
    not follow, so an element never overtakes an earlier one unless it
    is strictly smaller. *)
Fixpoint insert (x : A) (l : list A) : list A :=
  match l with
  | [] => [x]
  | y :: l' => if lt (key y) (key x) then y :: insert x l' else x :: y :: l'
  end.

Fixpoint sorted (l : list A) : list A :=
  match l with
  | [] => []
  | x :: l' => insert x (sorted l')
  end.
End Sorted.

End Py.

Module httplib.
Definition OK : Z := 200.
Definition CREATED : Z := 201.
Definition ACCEPTED : Z := 202.
Definition NO_CONTENT : Z := 204.
End httplib.

(** ** Domain entities (constructor arguments as the driver passes them) *)

(** Modelled from the spec: the lifecycle-state enumeration
    [libcloud.compute.types.NodeState] is not part of the driver file; the
    driver names two of its members, and the data model describes the state
    as an "enum: RUNNING, UNKNOWN". *)
Inductive NodeState := RUNNING | UNKNOWN.

(** What ends up in a node's [state]: a member of the enumeration, or a
    plain string where the driver passes one. *)
Inductive state_value :=
| StateEnum (s : NodeState)
| StateStr (s : string).

Module Node.
Record t := make {
  id : pyval;
  name : pyval;
  state : state_value;
  public_ips : pyval;
  private_ips : pyval;
  extra : option (gmap string pyval)
}.
End Node.

Module NodeLocation.
Record t := make { id : pyval; name : pyval; country : string }.
End NodeLocation.

Module NodeImage.
Record t := make { id : pyval; name : pyval; extra : gmap string pyval }.
End NodeImage.

Module NodeSize.
Record t (P : Type) := make {
  id : pyval;
  name : pyval;
  ram : pyval;
  disk : pyval;
  bandwidth : pyval;
  price : P
}.
Arguments make {P}.
Arguments id {P}.
Arguments name {P}.
Arguments ram {P}.
Arguments disk {P}.
Arguments bandwidth {P}.
Arguments price {P}.
End NodeSize.

(** ** Module-level constants *)

Definition API_HOST : string := "api.nephoscale.com".

Definition NODE_STATE_MAP : gmap string NodeState :=
  {[ "on" := RUNNING; "off" := UNKNOWN; "unknown" := UNKNOWN ]}.

Definition VALID_RESPONSE_CODES : list Z :=
  [httplib.OK; httplib.ACCEPTED; httplib.CREATED; httplib.NO_CONTENT].

(** [NODE_STATE_MAP.get(key, default)]: the key is hashed first, which
    lists and dictionaries refuse. *)
Definition NODE_STATE_MAP_get (key : pyval) (dflt : state_value) : result state_value :=
  match key with
  | PyStr s => Ok (default dflt (StateEnum <$> NODE_STATE_MAP !! s))
  | PyNone | PyBool _ | PyInt _ => Ok dflt
  | PyList _ | PyDict _ => Raise (TypeError "unhashable type")
  end.

(** ** NephoscaleResponse *)

Module NephoscaleResponse.
(** The status line and the body as [JsonResponse] decodes it. *)
Record t := make { status : Z; body : pyval }.

Definition parse_error (self : t) : result pyval :=
  if status self =? 401 then Raise (InvalidCredsError "Authorization Failed")
  else if status self =? 404
  then Raise (Exception (PyStr "The resource you are looking for is not found."))
  else Ok (body self).

Definition success (self : t) : bool :=
  Py.in_ints (PyInt (status self)) VALID_RESPONSE_CODES.

(** Modelled from the spec: the constructor of the base response class
    ([libcloud.common.base], not part of the driver file) decides what
    [connection.request] hands back.  Section 4.1: success is decided by
    the whitelist; a failure raises what [parse_error] raises, "any other
    non-whitelisted status fails with a generic RemoteError carrying the
    raw body", and "on success, the raw parsed body is returned
    unchanged". *)
Definition object (self : t) : result pyval :=
  if success self then Ok (body self)
  else body' ← parse_error self; Raise (Exception body').
End NephoscaleResponse.

(** ** The instance mapper *)

(** Lines 370-381 of [_to_node]: the two address lists, in the order
    [(public_ips, private_ips)]. *)
Definition classify_ip (acc : list string * list string) (ip : string)
  : list string * list string :=
  let ip := Py.remove_char " " ip in
  if Py.startswith ip "10." || Py.startswith ip "192.168"
  then (acc.1, (acc.2 ++ [ip])%list)
  else ((acc.1 ++ [ip])%list, acc.2).

Definition node_ips (ip_addresses : pyval) : result (list string * list string) :=
  if Py.truthy ip_addresses then
    match ip_addresses with
    | PyStr s => Ok (fold_left classify_ip (Py.split "," s) ([], []))
    | _ => Raise (AttributeError "split")
    end
  else Ok ([], []).

(** [data.get(key, {}).get(inner)] *)
Definition nested_get (data : pyval) (key inner : string) : result pyval :=
  sub ← Py.get data key (PyDict ∅); Py.get sub inner PyNone.

Definition _to_node (data : pyval) : result Node.t :=
  power_status ← Py.get data "power_status" PyNone;
  state ← NODE_STATE_MAP_get power_status (StateStr "4");
  ip_addresses ← Py.get data "ipaddresses" (PyStr "");
  ips ← node_ips ip_addresses;
  zone_data ← Py.get data "zone" PyNone;
  zone ← nested_get data "zone" "name";
  image ← nested_get data "image" "friendly_name";
  create_time ← Py.get data "create_time" PyNone;
  network_ports ← Py.get data "network_ports" PyNone;
  is_console_enabled ← Py.get data "is_console_enabled" PyNone;
  service_type ← nested_get data "service_type" "friendly_name";
  hostname ← Py.get data "hostname" PyNone;
  let extra : gmap string pyval :=
    {[ "zone_data" := zone_data;
       "zone" := zone;
       "image" := image;
       "create_time" := create_time;
       "network_ports" := network_ports;
       "is_console_enabled" := is_console_enabled;
       "service_type" := service_type;
       "hostname" := hostname ]} in
  id ← Py.get data "id" PyNone;
  name ← Py.get data "name" PyNone;
  Ok (Node.make id name state
        (PyList (PyStr <$> ips.1)) (PyList (PyStr <$> ips.2)) (Some extra)).

Definition _to_ssh_key (data : pyval) : pyval := data.

(** ** The connection, and the monad the driver methods run in *)

(** The arguments of one [connection.request(path, data=..., method=...)]. *)
Record Request := { path : string; data : option string; method : string }.

(** What [connection.request] returns; the driver only reads [.object]. *)
Record Response := { object : pyval }.

(** What a run of a driver method does to the outside. *)
Inductive event :=
| Requested (r : Request)
| Slept (seconds : Z).

Definition GET (p : string) : Request :=
  {| path := p; data := None; method := "GET" |}.
Definition DELETE (p : string) : Request :=
  {| path := p; data := None; method := "DELETE" |}.
Definition POST (p : string) (params : string) : Request :=
  {| path := p; data := Some params; method := "POST" |}.

Module kwargs.
(** The keyword arguments [create_node] reads; [None] is a keyword that
    was not passed.  For [name], [size] and [image] passing Python's [None]
    comes to the same, both being falsy; for the other three an explicit
    [None] is [Some PyNone]. *)
Record t (P : Type) := make {
  name : option string;
  hostname : option pyval;
  size : option (NodeSize.t P);
  image : option NodeImage.t;
  server_key : option pyval;
  console_key : option pyval
}.
Arguments make {P}.
Arguments name {P}.
Arguments hostname {P}.
Arguments size {P}.
Arguments image {P}.
Arguments server_key {P}.
Arguments console_key {P}.
End kwargs.

Section Driver.

(** The provider behind [self.connection]: a state and the outcome of one
    request in that state.  [libcloud.common.base] and the pricing table
    are not part of the driver file, so the connection, [urlencode],
    [str] and the price lookup of the base driver are taken as given. *)
Context {World : Type}.
Variable request : World -> Request -> World * result Response.
Variable urlencode : gmap string pyval -> string.
Variable str : pyval -> string.
Context {P : Type}.
Variable price_lt : P -> P -> bool.
Variable _get_size_price : string -> result P.

Record Env := { conn : World; trace : list event }.

Definition M (A : Type) : Type := Env -> Env * result A.

#[local] Instance M_ret : MRet M := fun A a e => (e, Ok a).
#[local] Instance M_bind : MBind M := fun A B f m e =>
  match m e with
  | (e', Ok a) => f a e'
  | (e', Raise x) => (e', Raise x)
  end.

Definition raise {A} (x : exn) : M A := fun e => (e, Raise x).

Definition lift {A} (r : result A) : M A := fun e => (e, r).

(** [try: body / except Exception: handler(e)] *)
Definition try_exceptM {A} (body : M A) (handler : exn -> M A) : M A := fun e =>
  match body e with
  | (e', Ok a) => (e', Ok a)
  | (e', Raise x) => handler x e'
  end.

(** [self.connection.request(...)] *)
Definition connection_request (r : Request) : M Response := fun e =>
  let '(w, res) := request (conn e) r in
  ({| conn := w; trace := (trace e ++ [Requested r])%list |}, res).

(** [time.sleep(seconds)] *)
Definition time_sleep (seconds : Z) : M unit := fun e =>
  ({| conn := conn e; trace := (trace e ++ [Slept seconds])%list |}, Ok tt).

(** [result.get('data', [])], ready to be looped over. *)
Definition data_values (result : pyval) : M (list pyval) :=
  data ← lift (Py.get result "data" (PyList []));
  lift (Py.iter data).

(** *** Listings *)

Definition to_location (value : pyval) : result NodeLocation.t :=
  id ← Py.get value "id" PyNone;
  name ← Py.get value "name" PyNone;
  Ok (NodeLocation.make id name "US").

Definition list_locations : M (list NodeLocation.t) :=
  resp ← connection_request (GET "/datacenter/");
  let result := object resp in
  values ← data_values result;
  lift (mapM_result to_location values).

Definition to_image (value : pyval) : result NodeImage.t :=
  architecture ← Py.get value "architecture" PyNone;
  disks ← Py.get value "disks" PyNone;
  billable_type ← Py.get value "billable_type" PyNone;
  pcpus ← Py.get value "pcpus" PyNone;
  cores ← Py.get value "cores" PyNone;
  uri ← Py.get value "uri" PyNone;
  storage ← Py.get value "storage" PyNone;
  let extra : gmap string pyval :=
    {[ "architecture" := architecture;
       "disks" := disks;
       "billable_type" := billable_type;
       "pcpus" := pcpus;
       "cores" := cores;
       "uri" := uri;
       "storage" := storage ]} in
  id ← Py.get value "id" PyNone;
  name ← Py.get value "friendly_name" PyNone;
  Ok (NodeImage.make id name extra).

Definition list_images : M (list NodeImage.t) :=
  resp ← connection_request (GET "/image/server/");
  let result := object resp in
  values ← data_values result;
  lift (mapM_result to_image values).

Definition to_size (value : pyval) : result (NodeSize.t P) :=
  id ← Py.get value "id" PyNone;
  name ← Py.get value "friendly_name" PyNone;
  ram ← Py.get value "ram" PyNone;
  disk ← Py.get value "storage" PyNone;
  size_id ← Py.get value "id" PyNone;
  price ← _get_size_price (str size_id);
  Ok (NodeSize.make id name ram disk PyNone price).

Definition list_sizes : M (list (NodeSize.t P)) :=
  resp ← connection_request (GET "/server/type/cloud/");
  let result := object resp in
  values ← data_values result;
  sizes ← lift (mapM_result to_size values);
  mret (Py.sorted price_lt NodeSize.price sizes).

Definition list_nodes : M (list Node.t) :=
  resp ← connection_request (GET "/server/cloud/");
  let result := object resp in
  values ← data_values result;
  lift (mapM_result _to_node values).

(** [key.get('key_group', '') == key_group] *)
Definition in_key_group (key_group : Z) (key : pyval) : result bool :=
  g ← Py.get key "key_group" (PyStr ""); Ok (Py.eq_int g key_group).

Definition list_all_keys (key_group : option Z) : M (list pyval) :=
  resp ← connection_request (GET "/key/");
  let result := object resp in
  values ← data_values result;
  let keys := _to_ssh_key <$> values in
  match key_group with
  | Some g =>
      if Py.truthy (PyInt g) then lift (filterM_result (in_key_group g) keys)
      else mret keys
  | None => mret keys
  end.

(** *** Deleting keys *)

Definition delete_ssh_key (key_id : pyval) : M bool :=
  resp ← try_exceptM
           (connection_request (DELETE ("/key/sshrsa/" +:+ str key_id +:+ "/")))
           (fun e => raise e);
  let result := object resp in
  response ← lift (Py.get result "response" PyNone);
  mret (Py.in_ints response VALID_RESPONSE_CODES).

Definition delete_password_key (key_id : pyval) : M bool :=
  resp ← try_exceptM
           (connection_request (DELETE ("/key/password/" +:+ str key_id +:+ "/")))
           (fun e => raise e);
  let result := object resp in
  response ← lift (Py.get result "response" PyNone);
  mret (Py.in_ints response VALID_RESPONSE_CODES).

(** *** create_node *)

(** [if not x: raise Exception(msg)] for a keyword argument [x]. *)
Definition required {A} (x : option A) (truthy : A -> bool) (msg : string) : result A :=
  match x with
  | Some a => if truthy a then Ok a else Raise (Exception (PyStr msg))
  | None => Raise (Exception (PyStr msg))
  end.

(** The first [try] block (lines 317-334): the values the request is built
    from, in the order [name, hostname, service_type, image, server_key,
    console_key]. *)
Definition create_node_args (kw : kwargs.t P)
  : result (string * pyval * pyval * pyval * pyval * pyval) :=
  try_except
    (name ← required (kwargs.name kw) (fun n => Py.truthy (PyStr n))
              "Name cannot be blank";
     let hostname := default (PyStr name) (kwargs.hostname kw) in
     service_type ← required (kwargs.size kw) (fun _ => true)
                      "Service type cannot be blank";
     let service_type := NodeSize.id service_type in
     image ← required (kwargs.image kw) (fun _ => true) "Image cannot be blank";
     let image := NodeImage.id image in
     let server_key := default (PyStr "") (kwargs.server_key kw) in
     let console_key := default (PyStr "") (kwargs.console_key kw) in
     Ok (name, hostname, service_type, image, server_key, console_key))
    (fun e => Raise (ExceptionFmt "Error on create node: %s" e)).

Definition LOGIN_ATTEMPTS : nat := 20.

(** [[c_node for c_node in nodes if c_node.name == name]] *)
Definition named (name : string) (nodes : list Node.t) : list Node.t :=
  List.filter (fun c_node => Py.eq_str (Node.name c_node) name) nodes.

(** The [while LOGIN_ATTEMPTS > 0] loop (lines 355-363), by recursion on
    the attempts left. *)
Fixpoint poll (name : string) (node : Node.t) (attempts : nat) : M Node.t :=
  match attempts with
  | O => mret node
  | S attempts' =>
      nodes ← list_nodes;
      match named name nodes with
      | created :: _ => mret created
      | [] => _ ← time_sleep 10; poll name node attempts'
      end
  end.

Definition create_request (name : string)
    (hostname service_type image server_key console_key : pyval) : Request :=
  let data : gmap string pyval :=
    {[ "name" := PyStr name;
       "hostname" := hostname;
       "service_type" := service_type;
       "image" := image;
       "server_key" := server_key;
       "console_key" := console_key ]} in
  let params := urlencode data in
  POST "/server/cloud/" params.

(** The node line 350 builds before polling. *)
Definition placeholder (name : string) : Node.t :=
  Node.make (PyStr "") (PyStr name) (StateStr "") (PyStr "") (PyStr "") None.

Definition create_node (kw : kwargs.t P) : M Node.t :=
  '(name, hostname, service_type, image, server_key, console_key) ←
    lift (create_node_args kw);
  _ ← try_exceptM
        (connection_request
           (create_request name hostname service_type image server_key console_key))
        (fun e => raise (ExceptionFmt "Failed to create node %s" e));
  let node := placeholder name in
  poll name node LOGIN_ATTEMPTS.

End Driver.

Arguments conn {World} e.
Arguments trace {World} e.
#[global] Existing Instance M_ret.
#[global] Existing Instance M_bind.

(** ** Vocabulary for the statements *)

(** A token the mapper files under the private addresses. *)
Definition is_private (ip : string) : bool :=
  Py.startswith ip "10." || Py.startswith ip "192.168".

(** The tokens of an address string as the mapper sees them: none for the
    empty string, otherwise the comma-separated pieces with their spaces
    removed. *)
Definition address_tokens (s : string) : list string :=
  match s with
  | EmptyString => []
  | _ => Py.remove_char " " <$> Py.split "," s
  end.

(** The spec's words for the cleaning of a token, "strip whitespace", taken
    at their word for every whitespace character of ASCII: space, tab, line
    feed, vertical tab, form feed and carriage return. *)
Definition is_whitespace (c : ascii) : bool :=
  let n := nat_of_ascii c in
  (n =? 32)%nat || ((9 <=? n)%nat && (n <=? 13)%nat).

Fixpoint remove_whitespace (s : string) : string :=
  match s with
  | EmptyString => EmptyString
  | String c s' =>
      if is_whitespace c then remove_whitespace s' else String c (remove_whitespace s')
  end.

(** A token with a tab in front of a private prefix. *)
Definition tabbed_token : string := String "009"%char "10.0.0.5".

(** Values a dictionary accepts as a key. *)
Definition hashable (v : pyval) : bool :=
  match v with
  | PyList _ | PyDict _ => false
  | _ => true
  end.

(** An address field the mapper can read: a string, or anything falsy. *)
Definition address_field_ok (v : pyval) : bool :=
  match v with
  | PyStr _ => true
  | _ => negb (Py.truthy v)
  end.

(** A nested structure that is missing or is a mapping. *)
Definition mapping_if_present (o : option pyval) : bool :=
  match o with
  | None | Some (PyDict _) => true
  | Some _ => false
  end.

(** The fields of a raw instance record that are present can be read by
    the mapper; every one of them may be missing. *)
Definition present_fields_readable (d : gmap string pyval) : bool :=
  hashable (default PyNone (d !! "power_status"))
  && address_field_ok (default (PyStr "") (d !! "ipaddresses"))
  && mapping_if_present (d !! "zone")
  && mapping_if_present (d !! "image")
  && mapping_if_present (d !! "service_type").

(** [data.get(key, {}).get(inner)] when [data[key]] is missing or a mapping. *)
Definition nested_name (d : gmap string pyval) (key inner : string) : pyval :=
  match d !! key with
  | Some (PyDict sub) => default PyNone (sub !! inner)
  | _ => PyNone
  end.

(** The listing request of [list_nodes], and how many of them a trace holds. *)
Definition list_nodes_request : Request := GET "/server/cloud/".

(** What one round of polling that finds nothing adds to the trace. *)
Definition round_events : list event := [Requested list_nodes_request; Slept 10].

Definition is_listing_call (ev : event) : bool :=
  match ev with
  | Requested r => String.eqb (path r) "/server/cloud/" && String.eqb (method r) "GET"
  | Slept _ => false
  end.

Definition listing_calls (t : list event) : nat :=
  length (List.filter is_listing_call t).

(** What a listing reads out of the response: the values under ['data'],
    and the nodes they map to. *)
Definition values_of (resp : Response) : result (list pyval) :=
  data ← Py.get (object resp) "data" (PyList []); Py.iter data.

Definition nodes_of (resp : Response) : result (list Node.t) :=
  values ← values_of resp; mapM_result _to_node values.

Section Polling.
Context {World : Type}.
Variable request : World -> Request -> World * result Response.

(** The environment after one request, whatever its outcome. *)
Definition after_request (r : Request) (e : @Env World) : Env :=
  {| conn := (request (conn e) r).1; trace := (trace e ++ [Requested r])%list |}.

(** In environment [e] the provider answers request [r] with the
    envelope [d]. *)
Definition answers (e : @Env World) (r : Request) (d : gmap string pyval) : Prop :=
  (request (conn e) r).2 = Ok {| object := PyDict d |}.

(** One round of the loop that finds nothing: the listing, then the sleep. *)
Definition poll_round (e : Env) : Env :=
  (time_sleep 10 (list_nodes request e).1).1.

(** The outcome of listing call number [k + 1], when the [k] before it
    found nothing. *)
Definition listing (k : nat) (e : Env) : result (list Node.t) :=
  (list_nodes request (Nat.iter k poll_round e)).2.

(** A listing that returned, without a node of that name. *)
Definition no_match (name : string) (r : result (list Node.t)) : Prop :=
  exists nodes, r = Ok nodes /\ named name nodes = [].
End Polling.

(** [a] may stand before [b] in a list sorted by [key]: [b]'s key is not
    below [a]'s. *)
Definition in_order {A K} (lt : K -> K -> bool) (key : A -> K) (a b : A) : Prop :=
  lt (key b) (key a) = false.

(** Two prices neither of which is below the other. *)
Definition same_price {P} (price_lt : P -> P -> bool) (p q : P) : bool :=
  negb (price_lt p q) && negb (price_lt q p).

(** ** A scripted provider, to run the driver on concrete exchanges *)

Module Fixture.
(** The provider answers from a prepared list of outcomes, one per
    request, whatever is asked. *)
Definition World : Type := list (result Response).

Definition request (w : World) (r : Request) : World * result Response :=
  match w with
  | [] => ([], Raise (Exception (PyStr "connection closed")))
  | x :: w' => (w', x)
  end.

Definition str (v : pyval) : string :=
  match v with
  | PyNone => "None"
  | PyBool true => "True"
  | PyBool false => "False"
  | PyInt z => pretty z
  | PyStr s => s
  | PyList _ => "[...]"
  | PyDict _ => "{...}"
  end.

Definition urlencode (d : gmap string pyval) : string :=
  String.concat "&" ((fun kv => kv.1 +:+ "=" +:+ str kv.2) <$> map_to_list d).

Definition prices : gmap string Z := {[ "27" := 0; "5" := 30; "7" := 10; "9" := 10 ]}.

Definition _get_size_price (size_id : string) : result Z :=
  match prices !! size_id with
  | Some p => Ok p
  | None => Raise (KeyError size_id)
  end.

Definition start (w : World) : Env := {| conn := w; trace := [] |}.

Definition envelope (fields : gmap string pyval) : result Response :=
  Ok {| object := PyDict fields |}.

Definition size27 : NodeSize.t Z :=
  NodeSize.make (PyInt 27) (PyStr "CS025") (PyInt 256) (PyInt 15) PyNone 0.

Definition image49 : NodeImage.t :=
  NodeImage.make (PyInt 49) (PyStr "Ubuntu") ∅.

Definition staging : kwargs.t Z :=
  kwargs.make (Some "staging-1") None (Some size27) (Some image49) None None.

Definition nameless : kwargs.t Z :=
  kwargs.make None None (Some size27) (Some image49) None None.

Definition accepted : result Response := envelope {[ "response" := PyInt 200 ]}.

Definition web_1 : pyval :=
  PyDict {[ "name" := PyStr "web-1"; "id" := PyStr "7"; "power_status" := PyStr "off" ]}.

Definition staging_1 : pyval :=
  PyDict {[ "name" := PyStr "staging-1";
            "id" := PyStr "999";
            "ipaddresses" := PyStr "198.51.100.7, 10.0.0.5";
            "power_status" := PyStr "on" ]}.

Definition staging_1_again : pyval :=
  PyDict {[ "name" := PyStr "staging-1"; "id" := PyStr "1000" ]}.

Definition unrelated : result Response := envelope {[ "data" := PyList [web_1] ]}.

(** The create call is accepted and the instance never shows up. *)
Definition never_listed : World := accepted :: replicate 20 unrelated.

(** The create call is accepted and the instance shows up in the fourth
    listing, ahead of a namesake. *)
Definition listed_fourth : World :=
  (accepted :: replicate 3 unrelated
   ++ [envelope {[ "data" := PyList [web_1; staging_1; staging_1_again] ]}])%list.

Definition raw_size (id : Z) (friendly_name : string) : pyval :=
  PyDict {[ "id" := PyInt id; "friendly_name" := PyStr friendly_name ]}.

Definition size_catalog : World :=
  [envelope {[ "data" := PyList [raw_size 5 "CS5"; raw_size 7 "CS1";
                                 raw_size 27 "CS025"; raw_size 9 "CS1-SSD"] ]}].
End Fixture.

(** ** The rest of the driver: commands on a node, key management, headers *)

Definition PUT (p : string) (params : string) : Request :=
  {| path := p; data := Some params; method := "PUT" |}.

(** A POST without a body, as the initiator calls send it. *)
Definition POST_empty (p : string) : Request :=
  {| path := p; data := None; method := "POST" |}.

Section Commands.

Context {World : Type}.
Variable request : World -> Request -> World * result Response.
Variable urlencode : gmap string pyval -> string.
Variable str : pyval -> string.

(** [hostname] is [PyNone] when the caller leaves it out. *)
Definition rename_node (node : Node.t) (name hostname : pyval) : M bool :=
  let data : gmap string pyval := {[ "name" := name ]} in
  let data := if Py.truthy hostname then <[ "hostname" := hostname ]> data else data in
  let params := urlencode data in
  resp ← connection_request request
           (PUT ("/server/cloud/" +:+ str (Node.id node) +:+ "/") params);
  let result := object resp in
  response ← lift (Py.get result "response" PyNone);
  mret (Py.in_ints response VALID_RESPONSE_CODES).

Definition reboot_node (node : Node.t) : M bool :=
  resp ← connection_request request
           (POST_empty ("/server/cloud/" +:+ str (Node.id node) +:+ "/initiator/restart/"));
  let result := object resp in
  response ← lift (Py.get result "response" PyNone);
  mret (Py.in_ints response VALID_RESPONSE_CODES).

Definition ex_start_node (node : Node.t) : M bool :=
  resp ← connection_request request
           (POST_empty ("/server/cloud/" +:+ str (Node.id node) +:+ "/initiator/start/"));
  let result := object resp in
  response ← lift (Py.get result "response" PyNone);
  mret (Py.in_ints response VALID_RESPONSE_CODES).

Definition ex_stop_node (node : Node.t) : M bool :=
  resp ← connection_request request
           (POST_empty ("/server/cloud/" +:+ str (Node.id node) +:+ "/initiator/stop/"));
  let result := object resp in
  response ← lift (Py.get result "response" PyNone);
  mret (Py.in_ints response VALID_RESPONSE_CODES).

Definition destroy_node (node : Node.t) : M bool :=
  resp ← connection_request request
           (DELETE ("/server/cloud/" +:+ str (Node.id node) +:+ "/"));
  let result := object resp in
  response ← lift (Py.get result "response" PyNone);
  mret (Py.in_ints response VALID_RESPONSE_CODES).

Definition list_ssh_keys : M (list pyval) :=
  resp ← connection_request request (GET "/key/sshrsa/");
  let result := object resp in
  values ← data_values result;
  mret (_to_ssh_key <$> values).

Definition list_password_keys : M (list pyval) :=
  resp ← connection_request request (GET "/key/password/");
  let result := object resp in
  values ← data_values result;
  mret (_to_ssh_key <$> values).

(** [result.get('data', {}).get('id', '')] *)
Definition created_id (envelope : pyval) : result pyval :=
  data ← Py.get envelope "data" (PyDict ∅); Py.get data "id" (PyStr "").

(** [key_group] is [PyInt 1] when the caller leaves it out. *)
Definition add_ssh_key (name public_key key_group : pyval) : M pyval :=
  let data : gmap string pyval :=
    {[ "name" := name; "public_key" := public_key; "key_group" := key_group ]} in
  let params := urlencode data in
  resp ← try_exceptM (connection_request request (POST "/key/sshrsa/" params))
           (fun e => raise e);
  let result := object resp in
  lift (created_id result).

(** *** Passwords *)

(** [random.choice] draws from a generator, taken as given like the
    connection: its state, and the outcome of one draw from a sequence of
    characters. *)
Context {Rand : Type}.
Variable random_choice : Rand -> string -> Rand * result ascii.

(** [string.ascii_lowercase + string.digits] *)
Definition lowercase_and_digits : string := "abcdefghijklmnopqrstuvwxyz0123456789".

(** [''.join(random.choice(chars) for x in range(size))], by recursion on
    the draws left. *)
Fixpoint random_chars (draws : nat) (chars : string) (g : Rand) : Rand * result string :=
  match draws with
  | O => (g, Ok EmptyString)
  | S draws' =>
      match random_choice g chars with
      | (g', Ok c) =>
          match random_chars draws' chars g' with
          | (g'', Ok s) => (g'', Ok (String c s))
          | (g'', Raise x) => (g'', Raise x)
          end
      | (g', Raise x) => (g', Raise x)
      end
  end.

Definition random_password (size : Z) (chars : string) (g : Rand) : Rand * result string :=
  random_chars (Z.to_nat size) chars g.

(** [password] is [PyNone] and [key_group] is [PyInt 4] when the caller
    leaves them out.  The generator is only used when no password is
    given. *)
Definition add_password_key (name password key_group : pyval) (g : Rand) (e : Env)
  : Rand * (@Env World * result pyval) :=
  let '(g', password) :=
    if negb (Py.truthy password)
    then let '(g', r) := random_password 8 lowercase_and_digits g in
         (g', match r with Ok s => Ok (PyStr s) | Raise x => Raise x end)
    else (g, Ok password) in
  (g',
   (password ← lift password;
    let data : gmap string pyval :=
      {[ "name" := name; "password" := password; "key_group" := key_group ]} in
    let params := urlencode data in
    resp ← try_exceptM (connection_request request (POST "/key/password/" params))
             (fun e => raise e);
    let result := object resp in
    lift (created_id result)) e).

End Commands.

(** *** NephoscaleConnection *)

Section Connection.

(** [base64.b64encode(b(s)).decode('utf-8')], from the standard library. *)
Variable b64encode : string -> string.

(** The dictionary is updated in place and returned; [user_id] and [key]
    are the credentials the connection holds. *)
Definition add_default_headers (user_id key : string) (headers : gmap string string)
  : gmap string string :=
  let user_b64 := b64encode (user_id +:+ ":" +:+ key) in
  <[ "Authorization" := "Basic " +:+ user_b64 ]> headers.

End Connection.

(** ** More vocabulary for the statements *)

Definition is_request (ev : event) : bool :=
  match ev with
  | Requested _ => true
  | Slept _ => false
  end.

(** The requests and the sleeps of a trace. *)
Definition count_requests (t : list event) : nat := length (List.filter is_request t).

Definition count_sleeps (t : list event) : nat :=
  length (List.filter (fun ev => negb (is_request ev)) t).

(** How often a character occurs in a string. *)
Fixpoint count_char (c : ascii) (s : string) : nat :=
  match s with
  | EmptyString => O
  | String c' s' => if Ascii.eqb c' c then S (count_char c s') else count_char c s'
  end.

Definition is_mapping (v : pyval) : bool :=
  match v with
  | PyDict _ => true
  | _ => false
  end.

(** [key.get('key_group', '') == g] for a key that is a mapping. *)
Definition in_group (g : Z) (key : pyval) : bool :=
  match key with
  | PyDict m => Py.eq_int (default (PyStr "") (m !! "key_group")) g
  | _ => false
  end.

(** The characters of a string. *)
Definition chars_of (s : string) : list ascii := list_ascii_of_string s.

(** The outcome of reading the id of a created key out of an envelope. *)
Definition created_id_of (d : gmap string pyval) : result pyval :=
  match d !! "data" with
  | None => Ok (PyStr "")
  | Some (PyDict m) => Ok (default (PyStr "") (m !! "id"))
  | Some _ => Raise (AttributeError "get")
  end.

(** A generator that keeps its word: from a sequence that is not empty it
    draws one of its characters. *)
Definition draws_from_sequence {Rand} (random_choice : Rand -> string -> Rand * result ascii)
  : Prop :=
  forall g chars, chars <> "" ->
    exists c, (random_choice g chars).2 = Ok c /\ In c (chars_of chars).

Section Reports.
Context {World : Type}.
Variable request : World -> Request -> World * result Response.

(** What it means for a command [run], started in [e], to send the request
    [r] and report on its answer: [r] is the one request it makes, whatever
    comes back; what the provider raises, the command raises; and when the
    command returns, the provider answered with a mapping and the value
    says whether its ['response'] is one of the integers 200, 201, 202,
    204. *)
Definition reports_on (run : M bool) (r : Request) (e : @Env World) : Prop :=
  (run e).1 = after_request request r e
  /\ (forall x, (request (conn e) r).2 = Raise x -> (run e).2 = Raise x)
  /\ (forall b, (run e).2 = Ok b ->
        exists d, answers request e r d
          /\ (b = true <-> exists c, d !! "response" = Some (PyInt c)
                                    /\ In c [200; 201; 202; 204])
          /\ (d !! "response" = None -> b = false)).
End Reports.

(** ** A scripted generator, to run the password helpers *)

Module Dice.
(** The generator answers from a prepared list of indices, each taken
    modulo the length of the sequence; an exhausted list counts as index
    0.  On the empty sequence it raises, as [random.choice] does. *)
Definition Rand : Type := list nat.

Definition pick (i : nat) (chars : string) : result ascii :=
  match String.get (i mod String.length chars) chars with
  | Some c => Ok c
  | None => Raise (Exception (PyStr "Cannot choose from an empty sequence"))
  end.

Definition random_choice (g : Rand) (chars : string) : Rand * result ascii :=
  match g with
  | [] => ([], pick 0 chars)
  | i :: g' => (g', pick i chars)
  end.

Definition b64encode (s : string) : string := "b64(" +:+ s +:+ ")".

Definition web_1 : Node.t :=
  Node.make (PyStr "7") (PyStr "web-1") (StateEnum UNKNOWN) (PyList []) (PyList []) None.
End Dice.

(** * Properties *)
(** ** The response normaliser *)

Lemma success_whitelist (st : Z) (b : pyval) :
  NephoscaleResponse.success (NephoscaleResponse.make st b) = true
  <-> st = 200 \/ st = 201 \/ st = 202 \/ st = 204.
Proof.
  unfold NephoscaleResponse.success, Py.in_ints, VALID_RESPONSE_CODES. simpl.
  unfold httplib.OK, httplib.ACCEPTED, httplib.CREATED, httplib.NO_CONTENT.
  rewrite !orb_true_iff, !Z.eqb_eq. intuition discriminate.
Qed.

Lemma object_on_success (st : Z) (b : pyval) :
  NephoscaleResponse.success (NephoscaleResponse.make st b) = true ->
  NephoscaleResponse.object (NephoscaleResponse.make st b) = Ok b.
Proof. intros H. unfold NephoscaleResponse.object. now rewrite H. Qed.

(** C7: [success] holds exactly for the statuses 200, 201, 202 and 204.
    Status 401 raises [InvalidCredsError] (the authentication error) and
    status 404 raises the exception whose message says the resource is not
    found, both from [parse_error] and so from the response as a whole.  A
    response with status 200 and a body with a list under ['data'] yields
    that body unchanged, as does every response with a status of the
    whitelist. *)
Theorem normalizer_classification :
  (forall st b, NephoscaleResponse.success (NephoscaleResponse.make st b) = true
                <-> st = 200 \/ st = 201 \/ st = 202 \/ st = 204)
  /\ (forall b, NephoscaleResponse.parse_error (NephoscaleResponse.make 401 b)
                = Raise (InvalidCredsError "Authorization Failed")
             /\ NephoscaleResponse.object (NephoscaleResponse.make 401 b)
                = Raise (InvalidCredsError "Authorization Failed"))
  /\ (forall b, NephoscaleResponse.parse_error (NephoscaleResponse.make 404 b)
                = Raise (Exception (PyStr "The resource you are looking for is not found."))
             /\ NephoscaleResponse.object (NephoscaleResponse.make 404 b)
                = Raise (Exception (PyStr "The resource you are looking for is not found.")))
  /\ (forall items : list pyval,
        NephoscaleResponse.object
          (NephoscaleResponse.make 200 (PyDict {[ "data" := PyList items ]}))
        = Ok (PyDict {[ "data" := PyList items ]}))
  /\ (forall st b, NephoscaleResponse.success (NephoscaleResponse.make st b) = true ->
        NephoscaleResponse.object (NephoscaleResponse.make st b) = Ok b).
Proof.
  split; [exact success_whitelist|].
  split; [intros b; split; reflexivity|].
  split; [intros b; split; reflexivity|].
  split; [intros items; reflexivity|].
  exact object_on_success.
Qed.

Lemma normalizer_classification_witness :
  NephoscaleResponse.object (NephoscaleResponse.make 204 PyNone) = Ok PyNone
  /\ NephoscaleResponse.success (NephoscaleResponse.make 500 PyNone) <> true.
Proof.
  destruct normalizer_classification as (Hwl & _ & _ & _ & Hok).
  split.
  - apply Hok. apply Hwl. lia.
  - intros H. apply Hwl in H. lia.
Defined.
(** ** The instance mapper *)

Lemma classify_ip_fold (l : list string) (pub priv : list string) :
  fold_left classify_ip l (pub, priv)
  = ((pub ++ List.filter (fun t => negb (is_private t)) (Py.remove_char " " <$> l))%list,
     (priv ++ List.filter is_private (Py.remove_char " " <$> l))%list).
Proof.
  revert pub priv. induction l as [|ip l IH]; intros pub priv; simpl.
  - now rewrite !app_nil_r.
  - unfold classify_ip at 2. fold (is_private (Py.remove_char " " ip)).
    destruct (is_private (Py.remove_char " " ip)); simpl; rewrite IH; simpl;
      now rewrite <- ?app_assoc.
Qed.

Lemma node_ips_str (s : string) :
  node_ips (PyStr s)
  = Ok (List.filter (fun t => negb (is_private t)) (address_tokens s),
        List.filter is_private (address_tokens s)).
Proof.
  destruct s as [|c s]; [reflexivity|].
  unfold node_ips, address_tokens. cbn [Py.truthy].
  now rewrite classify_ip_fold.
Qed.

Lemma node_ips_falsy (v : pyval) : Py.truthy v = false -> node_ips v = Ok ([], []).
Proof. intros H. unfold node_ips. now rewrite H. Qed.

Lemma node_ips_readable (v : pyval) :
  address_field_ok v = true ->
  exists pub priv, node_ips v = Ok (pub, priv)
    /\ (forall s, v = PyStr s ->
          pub = List.filter (fun t => negb (is_private t)) (address_tokens s)
          /\ priv = List.filter is_private (address_tokens s))
    /\ (Py.truthy v = false -> pub = [] /\ priv = []).
Proof.
  intros H.
  destruct (Py.truthy v) eqn:Hv.
  - destruct v; try (unfold address_field_ok in H; rewrite Hv in H; discriminate).
    rewrite node_ips_str. eexists _, _. split; [reflexivity|]. split.
    + intros s' [= <-]. tauto.
    + discriminate.
  - rewrite (node_ips_falsy _ Hv). eexists _, _. split; [reflexivity|]. split.
    + intros s ->. destruct s; [simpl; tauto|discriminate].
    + tauto.
Qed.

Lemma nested_get_readable (d : gmap string pyval) (key inner : string) :
  mapping_if_present (d !! key) = true ->
  nested_get (PyDict d) key inner = Ok (nested_name d key inner).
Proof.
  unfold nested_get, nested_name, Py.get. simpl.
  destruct (d !! key) as [[]|]; simpl; try discriminate; try reflexivity.
Qed.

Lemma state_of_hashable (v : pyval) :
  hashable v = true ->
  exists st, NODE_STATE_MAP_get v (StateStr "4") = Ok st
    /\ (forall s, v = PyStr s -> st = default (StateStr "4") (StateEnum <$> NODE_STATE_MAP !! s))
    /\ ((forall s, v <> PyStr s) -> st = StateStr "4").
Proof.
  destruct v; simpl; try discriminate; intros _; eexists; (split; [reflexivity|]);
    split; try discriminate; try tauto.
  - intros s' [= <-]. reflexivity.
  - intros H. now destruct (H s).
Qed.

(** What the mapper returns on a record whose present fields it can read. *)
Lemma to_node_readable (d : gmap string pyval) :
  present_fields_readable d = true ->
  exists st pub priv,
    NODE_STATE_MAP_get (default PyNone (d !! "power_status")) (StateStr "4") = Ok st
    /\ node_ips (default (PyStr "") (d !! "ipaddresses")) = Ok (pub, priv)
    /\ _to_node (PyDict d)
       = Ok (Node.make (default PyNone (d !! "id")) (default PyNone (d !! "name")) st
               (PyList (PyStr <$> pub)) (PyList (PyStr <$> priv))
               (Some {[ "zone_data" := default PyNone (d !! "zone");
                        "zone" := nested_name d "zone" "name";
                        "image" := nested_name d "image" "friendly_name";
                        "create_time" := default PyNone (d !! "create_time");
                        "network_ports" := default PyNone (d !! "network_ports");
                        "is_console_enabled" := default PyNone (d !! "is_console_enabled");
                        "service_type" := nested_name d "service_type" "friendly_name";
                        "hostname" := default PyNone (d !! "hostname") ]})).
Proof.
  unfold present_fields_readable. rewrite !andb_true_iff.
  intros [[[[Hps Hip] Hz] Hi] Hs].
  destruct (state_of_hashable _ Hps) as (st & Hst & _).
  destruct (node_ips_readable _ Hip) as (pub & priv & Hips & _).
  exists st, pub, priv. split; [exact Hst|]. split; [exact Hips|].
  unfold _to_node. cbn [Py.get mbind result_bind].
  rewrite Hst. cbn [mbind result_bind]. rewrite Hips. cbn [mbind result_bind].
  rewrite !nested_get_readable by assumption. reflexivity.
Qed.

Lemma state_table :
  NODE_STATE_MAP_get (PyStr "on") (StateStr "4") = Ok (StateEnum RUNNING)
  /\ NODE_STATE_MAP_get (PyStr "off") (StateStr "4") = Ok (StateEnum UNKNOWN)
  /\ NODE_STATE_MAP_get (PyStr "unknown") (StateStr "4") = Ok (StateEnum UNKNOWN).
Proof. repeat split. Qed.

Lemma NODE_STATE_MAP_lookup (s : string) :
  NODE_STATE_MAP !! s
  = if String.eqb s "on" then Some RUNNING
    else if String.eqb s "off" then Some UNKNOWN
    else if String.eqb s "unknown" then Some UNKNOWN
    else None.
Proof.
  unfold NODE_STATE_MAP.
  destruct (String.eqb_spec s "on") as [->|H1]; [reflexivity|].
  destruct (String.eqb_spec s "off") as [->|H2]; [reflexivity|].
  destruct (String.eqb_spec s "unknown") as [->|H3]; [reflexivity|].
  rewrite !lookup_insert_ne by congruence. now rewrite lookup_singleton_ne by congruence.
Qed.

(** Outside the table the lookup falls back to the string ['4'], whatever
    hashable value the record carried; it is never [RUNNING]. *)
Lemma state_outside_table (v : pyval) :
  hashable v = true ->
  v <> PyStr "on" -> v <> PyStr "off" -> v <> PyStr "unknown" ->
  NODE_STATE_MAP_get v (StateStr "4") = Ok (StateStr "4").
Proof.
  intros Hh Hon Hoff Hunk. destruct v; try discriminate; try reflexivity.
  simpl. rewrite NODE_STATE_MAP_lookup.
  destruct (String.eqb_spec s "on") as [->|]; [congruence|].
  destruct (String.eqb_spec s "off") as [->|]; [congruence|].
  destruct (String.eqb_spec s "unknown") as [->|]; [congruence|].
  reflexivity.
Qed.

(** C4, at two records the provider can send: a power status outside the
    table, and no power status at all.  The mapper gives both the string
    ['4'] as their state, which is not the member [UNKNOWN] of the
    enumeration (and not [RUNNING] either). *)
Theorem to_node_state_outside_table :
  (exists n,
      _to_node (PyDict {[ "name" := PyStr "web-1"; "power_status" := PyStr "rebooting" ]})
      = Ok n
      /\ Node.state n = StateStr "4")
  /\ (exists n,
        _to_node (PyDict {[ "name" := PyStr "web-1" ]}) = Ok n
        /\ Node.state n = StateStr "4")
  /\ StateStr "4" <> StateEnum UNKNOWN
  /\ StateStr "4" <> StateEnum RUNNING.
Proof.
  split; [|split; [|split; discriminate]].
  - eexists. split; [vm_compute; reflexivity|reflexivity].
  - eexists. split; [vm_compute; reflexivity|reflexivity].
Qed.

(** C5, amended: the address string of a record is split on commas, the
    space characters (and no other whitespace) are removed from every
    piece, and the pieces that then start with [10.] or [192.168] make up
    the private list, all others the public list, each in the order of the
    string; a missing or empty address string gives two empty lists.  The
    record's other fields only need to be readable. *)
Theorem to_node_classifies_addresses (d : gmap string pyval) (s : string) :
  present_fields_readable d = true ->
  default (PyStr "") (d !! "ipaddresses") = PyStr s ->
  exists n,
    _to_node (PyDict d) = Ok n
    /\ Node.private_ips n = PyList (PyStr <$> List.filter is_private (address_tokens s))
    /\ Node.public_ips n
       = PyList (PyStr <$> List.filter (fun t => negb (is_private t)) (address_tokens s))
    /\ (forall t, In t (address_tokens s) ->
          if Py.startswith t "10." || Py.startswith t "192.168"
          then Node.private_ips n = PyList (PyStr <$> List.filter is_private (address_tokens s))
               /\ In t (List.filter is_private (address_tokens s))
          else In t (List.filter (fun t => negb (is_private t)) (address_tokens s)))
    /\ (s = "" -> Node.public_ips n = PyList [] /\ Node.private_ips n = PyList []).
Proof.
  intros Hd Hs.
  destruct (to_node_readable d Hd) as (st & pub & priv & _ & Hips & Hn).
  rewrite Hs, node_ips_str in Hips. injection Hips as <- <-.
  eexists. split; [exact Hn|]. cbn [Node.private_ips Node.public_ips].
  split; [reflexivity|]. split; [reflexivity|]. split.
  - intros t Ht. fold (is_private t). destruct (is_private t) eqn:Hp.
    + split; [reflexivity|]. apply filter_In. auto.
    + apply filter_In. rewrite Hp. auto.
  - intros ->. split; reflexivity.
Qed.

(** C5 as worded, at an address string whose only token carries a tab in
    front of a private prefix.  With its whitespace removed the token
    starts with [10.], yet the mapper removes spaces only: the token keeps
    its tab, fails the prefix test and is filed under the public
    addresses. *)
Lemma to_node_tab_keeps_token_public :
  Py.startswith (remove_whitespace tabbed_token) "10." = true
  /\ Py.remove_char " " tabbed_token = tabbed_token
  /\ exists n,
       _to_node (PyDict {[ "ipaddresses" := PyStr tabbed_token ]}) = Ok n
       /\ Node.public_ips n = PyList [PyStr tabbed_token]
       /\ Node.private_ips n = PyList [].
Proof.
  split; [reflexivity|]. split; [reflexivity|].
  eexists. split; [vm_compute; reflexivity|]. split; reflexivity.
Qed.

(** C9: on a record given as a mapping, a missing optional field never
    makes the mapper fail; it shows up as the default of that field: no
    addresses, the fallback state, [None] for the entries of [extra]
    (also for a display name whose nested structure is missing, or present
    without the name), [None] for id and name. *)
Theorem to_node_missing_fields_default (d : gmap string pyval) :
  present_fields_readable d = true ->
  exists n extra,
    _to_node (PyDict d) = Ok n
    /\ Node.extra n = Some extra
    /\ (d !! "ipaddresses" = None ->
          Node.public_ips n = PyList [] /\ Node.private_ips n = PyList [])
    /\ (d !! "power_status" = None -> Node.state n = StateStr "4")
    /\ (d !! "zone" = None ->
          extra !! "zone" = Some PyNone /\ extra !! "zone_data" = Some PyNone)
    /\ (d !! "image" = None -> extra !! "image" = Some PyNone)
    /\ (d !! "service_type" = None -> extra !! "service_type" = Some PyNone)
    /\ (forall sub, d !! "zone" = Some (PyDict sub) -> sub !! "name" = None ->
          extra !! "zone" = Some PyNone)
    /\ (forall sub, d !! "image" = Some (PyDict sub) -> sub !! "friendly_name" = None ->
          extra !! "image" = Some PyNone)
    /\ (forall sub, d !! "service_type" = Some (PyDict sub) ->
          sub !! "friendly_name" = None -> extra !! "service_type" = Some PyNone)
    /\ (d !! "hostname" = None -> extra !! "hostname" = Some PyNone)
    /\ (d !! "create_time" = None -> extra !! "create_time" = Some PyNone)
    /\ (d !! "network_ports" = None -> extra !! "network_ports" = Some PyNone)
    /\ (d !! "is_console_enabled" = None -> extra !! "is_console_enabled" = Some PyNone)
    /\ (d !! "id" = None -> Node.id n = PyNone)
    /\ (d !! "name" = None -> Node.name n = PyNone).
Proof.
  intros Hd.
  destruct (to_node_readable d Hd) as (st & pub & priv & Hst & Hips & Hn).
  eexists _, _. split; [exact Hn|]. split; [reflexivity|].
  cbn [Node.public_ips Node.private_ips Node.state Node.id Node.name].
  repeat match goal with |- _ /\ _ => split end.
  - intros Hm. rewrite Hm in Hips. injection Hips as <- <-. split; reflexivity.
  - intros Hm. rewrite Hm in Hst. cbn in Hst. congruence.
  - intros Hm. unfold nested_name. rewrite Hm. split; reflexivity.
  - intros Hm. unfold nested_name. now rewrite Hm.
  - intros Hm. unfold nested_name. now rewrite Hm.
  - intros sub Hm Hsub. unfold nested_name. now rewrite Hm, Hsub.
  - intros sub Hm Hsub. unfold nested_name. now rewrite Hm, Hsub.
  - intros sub Hm Hsub. unfold nested_name. now rewrite Hm, Hsub.
  - intros Hm. now rewrite Hm.
  - intros Hm. now rewrite Hm.
  - intros Hm. now rewrite Hm.
  - intros Hm. now rewrite Hm.
  - intros Hm. now rewrite Hm.
  - intros Hm. now rewrite Hm.
Qed.

Lemma to_node_missing_fields_default_witness :
  exists n,
    _to_node (PyDict ∅) = Ok n
    /\ Node.id n = PyNone
    /\ Node.state n = StateStr "4"
    /\ Node.public_ips n = PyList [].
Proof.
  assert (Hd : present_fields_readable ∅ = true) by reflexivity.
  destruct (to_node_missing_fields_default ∅ Hd)
    as (n & extra & Hn & _ & Hip & Hst & _ & _ & _ & _ & _ & _ & _ & _ & _ & _ & Hid & _).
  exists n. split; [exact Hn|]. split; [exact (Hid eq_refl)|].
  split; [exact (Hst eq_refl)|]. exact (proj1 (Hip eq_refl)).
Defined.

Lemma to_node_classifies_addresses_witness :
  exists n,
    _to_node (PyDict {[ "name" := PyStr "staging-1";
                        "ipaddresses" := PyStr "198.51.100.7, 10.0.0.5,192.168.1.9" ]})
    = Ok n
    /\ Node.private_ips n = PyList [PyStr "10.0.0.5"; PyStr "192.168.1.9"]
    /\ Node.public_ips n = PyList [PyStr "198.51.100.7"].
Proof.
  pose (d := {[ "name" := PyStr "staging-1";
                "ipaddresses" := PyStr "198.51.100.7, 10.0.0.5,192.168.1.9" ]}
             : gmap string pyval).
  assert (Hd : present_fields_readable d = true) by (vm_compute; reflexivity).
  assert (Hs : default (PyStr "") (d !! "ipaddresses")
               = PyStr "198.51.100.7, 10.0.0.5,192.168.1.9") by (vm_compute; reflexivity).
  destruct (to_node_classifies_addresses d _ Hd Hs) as (n & Hn & Hpriv & Hpub & _).
  exists n. split; [exact Hn|]. split; [exact Hpriv|exact Hpub].
Defined.

(** ** Running the driver methods *)

Section Runs.
Context {World : Type}.
Variable request : World -> Request -> World * result Response.

Lemma connection_request_run (r : Request) (e : Env) :
  connection_request request r e = (after_request request r e, (request (conn e) r).2).
Proof.
  unfold connection_request, after_request. now destruct (request (conn e) r).
Qed.

Lemma list_nodes_run (e : Env) :
  list_nodes request e
  = (after_request request list_nodes_request e,
     (request (conn e) list_nodes_request).2 ≫= nodes_of).
Proof.
  unfold list_nodes, list_nodes_request.
  unfold mbind at 1, M_bind. rewrite connection_request_run.
  destruct (request (conn e) (GET "/server/cloud/")).2 as [resp|x]; [|reflexivity].
  cbn [mbind result_bind]. unfold nodes_of, values_of, data_values, lift.
  unfold mbind at 1 2, M_bind.
  destruct (Py.get (object resp) "data" (PyList [])) as [data|x]; [|reflexivity].
  cbn [mbind result_bind].
  destruct (Py.iter data); reflexivity.
Qed.

Lemma poll_round_run (e : Env) :
  poll_round request e
  = {| conn := (request (conn e) list_nodes_request).1;
       trace := (trace e ++ round_events)%list |}.
Proof.
  unfold poll_round. rewrite list_nodes_run. cbn.
  now rewrite <- app_assoc.
Qed.

Lemma trace_rounds (k : nat) (e : Env) :
  trace (Nat.iter k (poll_round request) e)
  = (trace e ++ concat (replicate k round_events))%list.
Proof.
  induction k as [|k IH].
  - cbn. now rewrite app_nil_r.
  - rewrite Nat.iter_succ, poll_round_run. cbn [trace replicate concat].
    rewrite IH, <- app_assoc.
    f_equal. clear IH. induction k as [|k IH]; cbn [replicate concat].
    + reflexivity.
    + rewrite <- !app_assoc. now rewrite <- IH.
Qed.

Lemma listing_shift (j : nat) (e : Env) :
  listing request j (poll_round request e) = listing request (S j) e.
Proof. unfold listing. now rewrite Nat.iter_succ_r. Qed.

(** One pass through the loop body. *)
Lemma poll_step (name : string) (node : Node.t) (n : nat) (e : Env) :
  poll request name node (S n) e
  = match listing request 0 e with
    | Ok nodes =>
        match named name nodes with
        | created :: _ => (after_request request list_nodes_request e, Ok created)
        | [] => poll request name node n (poll_round request e)
        end
    | Raise x => (after_request request list_nodes_request e, Raise x)
    end.
Proof.
  cbn [poll]. unfold mbind at 1, M_bind. unfold listing, poll_round.
  change (Nat.iter 0 ?f ?x) with x.
  rewrite list_nodes_run. cbn [fst snd].
  destruct ((request (conn e) list_nodes_request).2 ≫= nodes_of) as [nodes|x];
    [|reflexivity].
  destruct (named name nodes); reflexivity.
Qed.


Lemma poll_found (name : string) (node : Node.t) (k n : nat) (e : Env)
    (nodes : list Node.t) (created : Node.t) (rest : list Node.t) :
  (k < n)%nat ->
  (forall j, (j < k)%nat -> no_match name (listing request j e)) ->
  listing request k e = Ok nodes ->
  named name nodes = created :: rest ->
  poll request name node n e
  = (after_request request list_nodes_request (Nat.iter k (poll_round request) e),
     Ok created).
Proof.
  revert n e. induction k as [|k IH]; intros n e Hk Hbefore Hk_nodes Hnamed.
  - destruct n as [|n]; [lia|]. rewrite poll_step, Hk_nodes, Hnamed. reflexivity.
  - destruct n as [|n]; [lia|]. rewrite poll_step.
    destruct (Hbefore 0%nat) as (nodes0 & -> & ->); [lia|].
    rewrite (IH n (poll_round request e)); [now rewrite Nat.iter_succ_r|lia| |..].
    + intros j Hj. rewrite listing_shift. apply Hbefore. lia.
    + now rewrite listing_shift.
    + exact Hnamed.
Qed.

Lemma listing_calls_app (t u : list event) :
  listing_calls (t ++ u) = (listing_calls t + listing_calls u)%nat.
Proof. unfold listing_calls. now rewrite List.filter_app, length_app. Qed.

Lemma listing_calls_rounds (k : nat) :
  listing_calls (concat (replicate k round_events)) = k.
Proof.
  induction k as [|k IH]; [reflexivity|].
  cbn [replicate concat]. rewrite listing_calls_app, IH. reflexivity.
Qed.
End Runs.

(** ** The provisioning workflow *)

Lemma eq_str_true (v : pyval) (s : string) : Py.eq_str v s = true <-> v = PyStr s.
Proof.
  destruct v; simpl; try (split; [discriminate|intros [=]]).
  rewrite String.eqb_eq. split; [now intros ->|now intros [=]].
Qed.

(** The head of a filtered list is the first element that passes. *)
Lemma filter_head {A} (p : A -> bool) (l : list A) (x : A) (rest : list A) :
  List.filter p l = x :: rest ->
  exists before after,
    l = (before ++ x :: after)%list /\ p x = true /\ Forall (fun y => p y = false) before.
Proof.
  induction l as [|y l IH]; simpl; [discriminate|].
  destruct (p y) eqn:Hy.
  - intros [= -> <-]. exists [], l. auto.
  - intros H. destruct (IH H) as (before & after & -> & Hx & Hb).
    exists (y :: before), after. auto.
Qed.

Section Workflow.
Context {World : Type}.
Variable request : World -> Request -> World * result Response.
Variable urlencode : gmap string pyval -> string.
Context {P : Type}.

Lemma create_node_run (kw : kwargs.t P) (e : Env)
    (name : string) (hostname service_type image server_key console_key : pyval) :
  create_node_args kw = Ok (name, hostname, service_type, image, server_key, console_key) ->
  let create :=
    create_request urlencode name hostname service_type image server_key console_key in
  create_node request urlencode kw e
  = match (request (conn e) create).2 with
    | Ok _ => poll request name (placeholder name) LOGIN_ATTEMPTS
                (after_request request create e)
    | Raise x => (after_request request create e,
                  Raise (ExceptionFmt "Failed to create node %s" x))
    end.
Proof.
  intros Hargs create. unfold create_node.
  unfold mbind at 1, M_bind. unfold lift at 1. rewrite Hargs.
  unfold mbind at 1, M_bind. unfold try_exceptM. rewrite connection_request_run.
  fold create. destruct (request (conn e) create).2; reflexivity.
Qed.

Lemma create_request_not_listing
    (name : string) (hostname service_type image server_key console_key : pyval) :
  is_listing_call
    (Requested (create_request urlencode name hostname service_type image
                  server_key console_key)) = false.
Proof. reflexivity. Qed.


(** C2: the listings before call [k + 1] come back without a node of the
    requested name, and call [k + 1] (one of the twenty) comes back with
    some.  Then [create_node] returns the first of them in the order of
    that listing, and call [k + 1] is the last request it makes. *)
Theorem create_node_resolved (kw : kwargs.t P) (e : Env)
    (name : string) (hostname service_type image server_key console_key : pyval)
    (resp : Response) (k : nat) (nodes : list Node.t) (created : Node.t)
    (rest : list Node.t) :
  create_node_args kw = Ok (name, hostname, service_type, image, server_key, console_key) ->
  let create :=
    create_request urlencode name hostname service_type image server_key console_key in
  (request (conn e) create).2 = Ok resp ->
  (k < 20)%nat ->
  (forall j, (j < k)%nat ->
     no_match name (listing request j (after_request request create e))) ->
  listing request k (after_request request create e) = Ok nodes ->
  named name nodes = created :: rest ->
  exists e',
    create_node request urlencode kw e = (e', Ok created)
    /\ (exists before after,
          nodes = (before ++ created :: after)%list
          /\ Node.name created = PyStr name
          /\ Forall (fun c => Node.name c <> PyStr name) before)
    /\ trace e' = (trace e ++ Requested create :: concat (replicate k round_events)
                     ++ [Requested list_nodes_request])%list
    /\ listing_calls (trace e') = (listing_calls (trace e) + S k)%nat.
Proof.
  intros Hargs create Hcreate Hk Hbefore Hnodes Hnamed. subst create.
  rewrite (create_node_run kw e _ _ _ _ _ _ Hargs), Hcreate.
  rewrite (poll_found request name _ k LOGIN_ATTEMPTS _ nodes created rest
             Hk Hbefore Hnodes Hnamed).
  eexists. split; [reflexivity|]. split.
  - destruct (filter_head _ _ _ _ Hnamed) as (before & after & -> & Hc & Hb).
    exists before, after. split; [reflexivity|]. split; [now apply eq_str_true|].
    eapply Forall_impl; [exact Hb|]. cbn. intros c Hne Heq.
    apply eq_str_true in Heq. congruence.
  - cbn [after_request trace]. rewrite trace_rounds. cbn [after_request trace].
    rewrite <- !app_assoc. split; [reflexivity|].
    rewrite !listing_calls_app, listing_calls_rounds.
    unfold listing_calls at 2 3. cbn [List.filter]. rewrite create_request_not_listing.
    cbn. lia.
Qed.

(** C3: without a name (missing or blank), a size or an image,
    [create_node] raises the exception of its first [try] block, a plain
    [Exception] whose message starts with "Error on create node" and names
    the first argument found missing.  The environment it returns is the
    one it was given: the connection was not used and nothing was added to
    the trace. *)
Theorem create_node_missing_argument (kw : kwargs.t P) (e : Env) :
  kwargs.name kw = None \/ kwargs.name kw = Some ""
  \/ kwargs.size kw = None \/ kwargs.image kw = None ->
  exists msg,
    create_node request urlencode kw e
    = (e, Raise (ExceptionFmt "Error on create node: %s" (Exception (PyStr msg))))
    /\ In msg ["Name cannot be blank"; "Service type cannot be blank";
               "Image cannot be blank"].
Proof.
  intros H. unfold create_node. unfold mbind at 1, M_bind. unfold lift at 1.
  unfold create_node_args.
  destruct kw as [name hostname size image server_key console_key].
  cbn [kwargs.name kwargs.size kwargs.image kwargs.hostname kwargs.server_key
       kwargs.console_key] in *.
  destruct name as [[|c name]|]; cbn;
    try (eexists; split; [reflexivity|]; cbn; tauto).
  destruct size as [size|]; cbn;
    try (eexists; split; [reflexivity|]; cbn; tauto).
  destruct image as [image|]; cbn;
    try (eexists; split; [reflexivity|]; cbn; tauto).
  exfalso. destruct H as [H|[H|[H|H]]]; discriminate.
Qed.
End Workflow.

(** ** Listings and key deletion *)

Lemma in_valid_codes (v : pyval) :
  Py.in_ints v VALID_RESPONSE_CODES = true
  <-> exists c, v = PyInt c /\ In c [200; 201; 202; 204].
Proof.
  unfold Py.in_ints, VALID_RESPONSE_CODES, httplib.OK, httplib.ACCEPTED,
    httplib.CREATED, httplib.NO_CONTENT.
  cbn [existsb In]. rewrite !orb_true_iff. split.
  - destruct v as [|[]|z| | |]; cbn [Py.eq_int Z.b2z];
      try (cbn; intuition discriminate).
    rewrite !Z.eqb_eq. intros H. exists z. split; [reflexivity|]. cbn [In]. lia.
  - intros (c & -> & H). cbn [Py.eq_int]. rewrite !Z.eqb_eq. cbn [In] in H. lia.
Qed.

Lemma values_of_no_data (d : gmap string pyval) :
  d !! "data" = None -> values_of {| object := PyDict d |} = Ok [].
Proof. intros H. unfold values_of. cbn. now rewrite H. Qed.

Section Listings.
Context {World : Type}.
Variable request : World -> Request -> World * result Response.
Variable str : pyval -> string.
Context {P : Type}.
Variable price_lt : P -> P -> bool.
Variable _get_size_price : string -> result P.

(** A method that sends one request and loops over the values under
    ['data'] of the answer. *)
Lemma listing_run {A} (r : Request) (k : list pyval -> M A) (e : Env) :
  (resp ← connection_request request r; values ← data_values (object resp); k values) e
  = match (request (conn e) r).2 ≫= values_of with
    | Ok values => k values (after_request request r e)
    | Raise x => (after_request request r e, Raise x)
    end.
Proof.
  unfold mbind at 1, M_bind. rewrite connection_request_run.
  destruct (request (conn e) r).2 as [resp|x]; [|reflexivity].
  cbn [mbind result_bind]. unfold values_of, data_values, lift.
  unfold mbind at 1 2, M_bind.
  destruct (Py.get (object resp) "data" (PyList [])) as [data|x]; [|reflexivity].
  cbn [mbind result_bind]. destruct (Py.iter data); reflexivity.
Qed.

Lemma delete_run (path : string) (e : Env) :
  (resp ← try_exceptM (connection_request request (DELETE path)) (fun x => raise x);
   response ← lift (Py.get (object resp) "response" PyNone);
   mret (Py.in_ints response VALID_RESPONSE_CODES)) e
  = (after_request request (DELETE path) e,
     resp ← (request (conn e) (DELETE path)).2;
     response ← Py.get (object resp) "response" PyNone;
     Ok (Py.in_ints response VALID_RESPONSE_CODES)).
Proof.
  unfold mbind at 1, M_bind. unfold try_exceptM. rewrite connection_request_run.
  destruct (request (conn e) (DELETE path)).2 as [resp|x]; [|reflexivity].
  cbn [mbind result_bind]. unfold mbind at 1, M_bind, lift.
  destruct (Py.get (object resp) "response" PyNone); reflexivity.
Qed.

(** C8: when [delete_ssh_key] or [delete_password_key] returns, the
    provider answered the DELETE request with a mapping, and the value
    returned is the membership of its ['response'] entry in
    [VALID_RESPONSE_CODES]: [True] exactly when the entry is one of the
    integers 200, 201, 202, 204, and [False] when there is no entry. *)
Theorem delete_key_result (key_id : pyval) (e e' : Env) (b : bool) :
  delete_ssh_key request str key_id e = (e', Ok b)
  \/ delete_password_key request str key_id e = (e', Ok b) ->
  exists path d,
    In path ["/key/sshrsa/" +:+ str key_id +:+ "/";
             "/key/password/" +:+ str key_id +:+ "/"]
    /\ answers request e (DELETE path) d
    /\ e' = after_request request (DELETE path) e
    /\ b = Py.in_ints (default PyNone (d !! "response")) VALID_RESPONSE_CODES
    /\ (b = true <-> exists c, d !! "response" = Some (PyInt c)
                              /\ In c [200; 201; 202; 204])
    /\ (d !! "response" = None -> b = false).
Proof.
  assert (Hpath : forall path,
    (after_request request (DELETE path) e,
     resp ← (request (conn e) (DELETE path)).2;
     response ← Py.get (object resp) "response" PyNone;
     Ok (Py.in_ints response VALID_RESPONSE_CODES)) = (e', Ok b) ->
    exists d,
      answers request e (DELETE path) d
      /\ e' = after_request request (DELETE path) e
      /\ b = Py.in_ints (default PyNone (d !! "response")) VALID_RESPONSE_CODES
      /\ (b = true <-> exists c, d !! "response" = Some (PyInt c)
                                /\ In c [200; 201; 202; 204])
      /\ (d !! "response" = None -> b = false)).
  { intros path [= <- Hb]. unfold answers.
    destruct (request (conn e) (DELETE path)).2 as [[obj]|x]; [|discriminate].
    cbn [mbind result_bind object] in Hb.
    destruct obj as [| | | | |d]; try discriminate.
    cbn [mbind result_bind Py.get] in Hb. injection Hb as <-. exists d.
    split; [reflexivity|]. split; [reflexivity|]. split; [reflexivity|]. split.
    - change (Py.in_ints (default PyNone (d !! "response")) VALID_RESPONSE_CODES = true
              <-> exists c, d !! "response" = Some (PyInt c)
                            /\ In c [200; 201; 202; 204]).
      rewrite in_valid_codes. split.
      + intros (c & Hc & Hin). exists c. split; [|exact Hin].
        destruct (d !! "response"); cbn in Hc; congruence.
      + intros (c & -> & Hin). exists c. auto.
    - intros ->. reflexivity. }
  intros [H|H].
  - unfold delete_ssh_key in H. rewrite delete_run in H.
    destruct (Hpath _ H) as (d & Hd).
    eexists _, d. split; [left; reflexivity|exact Hd].
  - unfold delete_password_key in H. rewrite delete_run in H.
    destruct (Hpath _ H) as (d & Hd).
    eexists _, d. split; [right; left; reflexivity|exact Hd].
Qed.

(** C10: an envelope without ['data'] makes every listing return the
    empty list, and a round of the polling loop that receives one goes on
    to the next round. *)
Theorem listings_without_data (e : Env) (d : gmap string pyval) :
  d !! "data" = None ->
  (answers request e (GET "/datacenter/") d ->
     (list_locations request e).2 = Ok [])
  /\ (answers request e (GET "/image/server/") d ->
       (list_images request e).2 = Ok [])
  /\ (answers request e (GET "/server/type/cloud/") d ->
       (list_sizes request str price_lt _get_size_price e).2 = Ok [])
  /\ (answers request e (GET "/server/cloud/") d ->
       (list_nodes request e).2 = Ok [])
  /\ (forall key_group, answers request e (GET "/key/") d ->
       (list_all_keys request key_group e).2 = Ok [])
  /\ (forall name node attempts, answers request e (GET "/server/cloud/") d ->
       listing request 0 e = Ok []
       /\ poll request name node (S attempts) e
          = poll request name node attempts (poll_round request e)).
Proof.
  intros Hd. pose proof (values_of_no_data d Hd) as Hv.
  repeat match goal with |- _ /\ _ => split end.
  - intros H. unfold list_locations. rewrite listing_run, H. cbn [mbind result_bind].
    now rewrite Hv.
  - intros H. unfold list_images. rewrite listing_run, H. cbn [mbind result_bind].
    now rewrite Hv.
  - intros H. unfold list_sizes. rewrite listing_run, H. cbn [mbind result_bind].
    now rewrite Hv.
  - intros H. unfold list_nodes. rewrite listing_run, H. cbn [mbind result_bind].
    now rewrite Hv.
  - intros key_group H. unfold list_all_keys. rewrite listing_run, H.
    cbn [mbind result_bind]. rewrite Hv.
    destruct key_group as [g|]; [|reflexivity]. cbn [fmap list_fmap].
    destruct (Py.truthy (PyInt g)); reflexivity.
  - intros name node attempts H.
    assert (Hl : listing request 0 e = Ok []).
    { unfold listing. change (Nat.iter 0 ?f ?x) with x. rewrite list_nodes_run.
      cbn [snd]. unfold list_nodes_request. rewrite H. cbn [mbind result_bind].
      unfold nodes_of. now rewrite Hv. }
    split; [exact Hl|]. rewrite poll_step, Hl. reflexivity.
Qed.
End Listings.

(** ** The size catalog *)

Section SortedProperties.
Context {A K : Type} (lt : K -> K -> bool) (key : A -> K).

(** The comparison is a strict weak order: it is asymmetric, and "not
    below" is transitive. *)
Hypothesis lt_asym : forall p q, lt p q = true -> lt q p = false.
Hypothesis not_lt_trans :
  forall p q r, lt q p = false -> lt r q = false -> lt r p = false.

Lemma insert_Permutation (x : A) (l : list A) : Py.insert lt key x l ≡ₚ x :: l.
Proof.
  induction l as [|y l IH]; cbn [Py.insert]; [reflexivity|].
  destruct (lt (key y) (key x)); [|reflexivity].
  rewrite IH. apply Permutation_swap.
Qed.

Lemma sorted_Permutation (l : list A) : Py.sorted lt key l ≡ₚ l.
Proof.
  induction l as [|x l IH]; cbn [Py.sorted]; [reflexivity|].
  now rewrite insert_Permutation, IH.
Qed.

Lemma insert_StronglySorted (x : A) (l : list A) :
  StronglySorted (in_order lt key) l -> StronglySorted (in_order lt key) (Py.insert lt key x l).
Proof.
  induction 1 as [|y l Hl IH Hy]; cbn [Py.insert].
  - repeat constructor.
  - destruct (lt (key y) (key x)) eqn:Hyx.
    + constructor; [exact IH|].
      rewrite insert_Permutation. constructor; [|exact Hy].
      unfold in_order. now apply lt_asym.
    + constructor; [now constructor|].
      constructor; [exact Hyx|].
      eapply Forall_impl; [exact Hy|]. cbn. unfold in_order. intros z Hz.
      now apply (not_lt_trans (key x) (key y) (key z)).
Qed.

Lemma sorted_StronglySorted (l : list A) : StronglySorted (in_order lt key) (Py.sorted lt key l).
Proof.
  induction l as [|x l IH]; cbn [Py.sorted]; [constructor|].
  now apply insert_StronglySorted.
Qed.

(** Elements whose keys tie with [p] keep their order. *)
Lemma insert_stable (p : K) (x : A) (l : list A) :
  List.filter (fun a => same_price lt p (key a)) (Py.insert lt key x l)
  = List.filter (fun a => same_price lt p (key a)) (x :: l).
Proof.
  induction l as [|y l IH]; cbn [Py.insert]; [reflexivity|].
  destruct (lt (key y) (key x)) eqn:Hyx; [|reflexivity].
  cbn [List.filter] in *. rewrite IH.
  destruct (same_price lt p (key x)) eqn:Hx; [|reflexivity].
  destruct (same_price lt p (key y)) eqn:Hy; [|reflexivity].
  exfalso. unfold same_price in Hx, Hy.
  apply andb_true_iff in Hx as [Hx1 Hx2]. apply andb_true_iff in Hy as [Hy1 Hy2].
  apply negb_true_iff in Hx1, Hx2, Hy1, Hy2.
  rewrite (not_lt_trans (key x) p (key y) Hx1 Hy2) in Hyx. discriminate.
Qed.

Lemma sorted_stable (p : K) (l : list A) :
  List.filter (fun a => same_price lt p (key a)) (Py.sorted lt key l)
  = List.filter (fun a => same_price lt p (key a)) l.
Proof.
  induction l as [|x l IH]; cbn [Py.sorted]; [reflexivity|].
  rewrite insert_stable. cbn [List.filter]. now rewrite IH.
Qed.
End SortedProperties.

Section SizeCatalog.
Context {World : Type}.
Variable request : World -> Request -> World * result Response.
Variable str : pyval -> string.
Context {P : Type}.
Variable price_lt : P -> P -> bool.
Variable _get_size_price : string -> result P.

(** C6: the provider answers the size request, and every entry of the
    answer maps to a size with a price, [catalog] in the provider's order.
    Then [list_sizes] returns a rearrangement of [catalog] in which no size
    is followed by a cheaper one, and in which the sizes that tie with any
    given price stand in the order they have in [catalog].  The price
    comparison is assumed to be a strict weak order. *)
Theorem list_sizes_sorted_stable (e : Env) (resp : Response)
    (values : list pyval) (catalog : list (NodeSize.t P)) :
  (forall p q, price_lt p q = true -> price_lt q p = false) ->
  (forall p q r, price_lt q p = false -> price_lt r q = false -> price_lt r p = false) ->
  (request (conn e) (GET "/server/type/cloud/")).2 = Ok resp ->
  values_of resp = Ok values ->
  mapM_result (to_size str _get_size_price) values = Ok catalog ->
  exists sizes,
    (list_sizes request str price_lt _get_size_price e).2 = Ok sizes
    /\ StronglySorted (in_order price_lt NodeSize.price) sizes
    /\ sizes ≡ₚ catalog
    /\ (forall p,
          List.filter (fun s => same_price price_lt p (NodeSize.price s)) sizes
          = List.filter (fun s => same_price price_lt p (NodeSize.price s)) catalog).
Proof.
  intros Hasym Htrans Hresp Hvalues Hcatalog.
  exists (Py.sorted price_lt NodeSize.price catalog). split.
  - unfold list_sizes. rewrite listing_run, Hresp. cbn [mbind result_bind].
    rewrite Hvalues. unfold mbind at 1, M_bind, lift. rewrite Hcatalog. reflexivity.
  - split; [now apply sorted_StronglySorted|].
    split; [apply sorted_Permutation|].
    intros p. now apply sorted_stable.
Qed.
End SizeCatalog.

(** ** The theorems on concrete exchanges *)


Lemma create_node_resolved_witness :
  exists e' node,
    create_node Fixture.request Fixture.urlencode Fixture.staging
      (Fixture.start Fixture.listed_fourth)
    = (e', Ok node)
    /\ Node.id node = PyStr "999"
    /\ Node.state node = StateEnum RUNNING
    /\ Node.public_ips node = PyList [PyStr "198.51.100.7"]
    /\ Node.private_ips node = PyList [PyStr "10.0.0.5"]
    /\ listing_calls (trace e') = 4%nat.
Proof.
  edestruct (create_node_resolved Fixture.request Fixture.urlencode Fixture.staging
               (Fixture.start Fixture.listed_fourth)) with (k := 3%nat)
    as (e' & Hrun & _ & _ & Hcalls).
  - reflexivity.
  - reflexivity.
  - lia.
  - intros j Hj.
    do 3 (destruct j as [|j]; [eexists; split; reflexivity|]).
    lia.
  - reflexivity.
  - reflexivity.
  - eexists e', _. split; [exact Hrun|]. repeat split. exact Hcalls.
Defined.

Lemma create_node_missing_argument_witness :
  exists msg,
    create_node Fixture.request Fixture.urlencode Fixture.nameless
      (Fixture.start Fixture.never_listed)
    = (Fixture.start Fixture.never_listed,
       Raise (ExceptionFmt "Error on create node: %s" (Exception (PyStr msg))))
    /\ In msg ["Name cannot be blank"; "Service type cannot be blank";
               "Image cannot be blank"].
Proof.
  apply (create_node_missing_argument Fixture.request Fixture.urlencode Fixture.nameless).
  left. reflexivity.
Defined.

Lemma delete_key_result_witness :
  exists path d c,
    answers Fixture.request (Fixture.start [Fixture.accepted]) (DELETE path) d
    /\ d !! "response" = Some (PyInt c)
    /\ In c [200; 201; 202; 204].
Proof.
  edestruct (delete_key_result Fixture.request Fixture.str (PyInt 70867)
               (Fixture.start [Fixture.accepted])
               (after_request Fixture.request (DELETE "/key/sshrsa/70867/")
                  (Fixture.start [Fixture.accepted]))
               true)
    as (path & d & _ & Hanswers & _ & _ & Hiff & _).
  - left. reflexivity.
  - destruct (proj1 Hiff eq_refl) as (c & Hc & Hin). exists path, d, c. auto.
Defined.

Lemma listings_without_data_witness :
  (list_locations Fixture.request (Fixture.start [Fixture.accepted])).2 = Ok []
  /\ (list_images Fixture.request (Fixture.start [Fixture.accepted])).2 = Ok []
  /\ (list_sizes Fixture.request Fixture.str Z.ltb Fixture._get_size_price
        (Fixture.start [Fixture.accepted])).2 = Ok []
  /\ (list_nodes Fixture.request (Fixture.start [Fixture.accepted])).2 = Ok []
  /\ (list_all_keys Fixture.request (Some 4) (Fixture.start [Fixture.accepted])).2 = Ok [].
Proof.
  assert (Hd : ({[ "response" := PyInt 200 ]} : gmap string pyval) !! "data" = None)
    by reflexivity.
  destruct (listings_without_data Fixture.request Fixture.str Z.ltb
              Fixture._get_size_price (Fixture.start [Fixture.accepted]) _ Hd)
    as (Hloc & Himg & Hsize & Hnode & Hkeys & _).
  split; [apply Hloc; reflexivity|].
  split; [apply Himg; reflexivity|].
  split; [apply Hsize; reflexivity|].
  split; [apply Hnode; reflexivity|].
  apply Hkeys; reflexivity.
Defined.

Lemma list_sizes_sorted_stable_witness :
  exists sizes,
    (list_sizes Fixture.request Fixture.str Z.ltb Fixture._get_size_price
       (Fixture.start Fixture.size_catalog)).2 = Ok sizes
    /\ NodeSize.name <$> sizes
       = [PyStr "CS025"; PyStr "CS1"; PyStr "CS1-SSD"; PyStr "CS5"]
    /\ NodeSize.price <$> sizes = [0; 10; 10; 30].
Proof.
  edestruct (list_sizes_sorted_stable Fixture.request Fixture.str Z.ltb
               Fixture._get_size_price (Fixture.start Fixture.size_catalog))
    as (sizes & Hrun & _).
  - intros p q H. apply Z.ltb_lt in H. apply Z.ltb_ge. lia.
  - intros p q r H1 H2. apply Z.ltb_ge in H1, H2. apply Z.ltb_ge. lia.
  - reflexivity.
  - reflexivity.
  - reflexivity.
  - exists sizes. split; [exact Hrun|].
    vm_compute in Hrun. injection Hrun as <-. split; reflexivity.
Defined.

(** * Further properties *)

(** ** The provisioning workflow, whatever the provider does *)

Lemma count_requests_app (t u : list event) :
  count_requests (t ++ u) = (count_requests t + count_requests u)%nat.
Proof. unfold count_requests. now rewrite List.filter_app, length_app. Qed.

Lemma count_sleeps_app (t u : list event) :
  count_sleeps (t ++ u) = (count_sleeps t + count_sleeps u)%nat.
Proof. unfold count_sleeps. now rewrite List.filter_app, length_app. Qed.

Section WorkflowBounds.
Context {World : Type}.
Variable request : World -> Request -> World * result Response.
Variable urlencode : gmap string pyval -> string.
Context {P : Type}.

(** What the loop adds to the trace, for any number of attempts. *)
Lemma poll_trace (name : string) (node : Node.t) (n : nat) (e : Env) :
  exists t,
    trace (poll request name node n e).1 = (trace e ++ t)%list
    /\ (listing_calls t <= n)%nat
    /\ count_requests t = listing_calls t
    /\ (count_sleeps t <= n)%nat.
Proof.
  revert e. induction n as [|n IH]; intros e.
  - exists []. cbn. rewrite app_nil_r. repeat split; lia.
  - rewrite poll_step.
    destruct (listing request 0 e) as [nodes|x].
    + destruct (named name nodes) as [|created rest].
      * destruct (IH (poll_round request e)) as (t & Ht & Hl & Hr & Hs).
        exists (round_events ++ t)%list. rewrite Ht, poll_round_run. cbn [trace].
        rewrite <- app_assoc. split; [reflexivity|].
        rewrite listing_calls_app, count_requests_app, count_sleeps_app.
        change (listing_calls round_events) with 1%nat.
        change (count_requests round_events) with 1%nat.
        change (count_sleeps round_events) with 1%nat. lia.
      * exists [Requested list_nodes_request]. cbn. repeat split; lia.
    + exists [Requested list_nodes_request]. cbn. repeat split; lia.
Qed.

(** X1: whatever the arguments and whatever the provider answers,
    [create_node] only appends to the trace, and what it appends holds at
    most twenty listing requests, at most one request besides them, and at
    most twenty sleeps. *)
Theorem create_node_bounded (kw : kwargs.t P) (e : Env) :
  exists t,
    trace (create_node request urlencode kw e).1 = (trace e ++ t)%list
    /\ (listing_calls t <= 20)%nat
    /\ (count_requests t <= listing_calls t + 1)%nat
    /\ (count_sleeps t <= 20)%nat.
Proof.
  destruct (create_node_args kw) as [[[[[[name hostname] st] img] sk] ck]|x] eqn:Hargs.
  - rewrite (create_node_run request urlencode kw e _ _ _ _ _ _ Hargs).
    set (create := create_request urlencode name hostname st img sk ck).
    destruct (request (conn e) create).2 as [resp|x].
    + destruct (poll_trace name (placeholder name) LOGIN_ATTEMPTS
                  (after_request request create e)) as (t & Ht & Hl & Hr & Hs).
      exists (Requested create :: t). rewrite Ht. cbn [after_request trace].
      rewrite <- app_assoc. split; [reflexivity|].
      change (Requested create :: t) with ([Requested create] ++ t)%list.
      rewrite listing_calls_app, count_requests_app, count_sleeps_app.
      change (listing_calls [Requested create]) with 0%nat.
      change (count_requests [Requested create]) with 1%nat.
      change (count_sleeps [Requested create]) with 0%nat.
      unfold LOGIN_ATTEMPTS in *. lia.
    + exists [Requested create]. cbn [after_request trace fst]. split; [reflexivity|].
      change (listing_calls [Requested create]) with 0%nat.
      change (count_requests [Requested create]) with 1%nat.
      change (count_sleeps [Requested create]) with 0%nat. lia.
  - exists []. unfold create_node. unfold mbind at 1, M_bind. unfold lift at 1.
    rewrite Hargs. cbn. rewrite app_nil_r. repeat split; lia.
Qed.

(** X2: when the create request raises, [create_node] raises the same
    exception wrapped as "Failed to create node", after that one request:
    no listing, no sleep. *)
Theorem create_node_create_fails (kw : kwargs.t P) (e : Env)
    (name : string) (hostname service_type image server_key console_key : pyval)
    (x : exn) :
  create_node_args kw = Ok (name, hostname, service_type, image, server_key, console_key) ->
  (request (conn e)
     (create_request urlencode name hostname service_type image server_key console_key)).2
  = Raise x ->
  exists e',
    create_node request urlencode kw e
    = (e', Raise (ExceptionFmt "Failed to create node %s" x))
    /\ trace e'
       = (trace e ++ [Requested (create_request urlencode name hostname service_type
                                   image server_key console_key)])%list.
Proof.
  intros Hargs Hraise.
  rewrite (create_node_run request urlencode kw e _ _ _ _ _ _ Hargs), Hraise.
  eexists. split; reflexivity.
Qed.

Lemma poll_raises (name : string) (node : Node.t) (k n : nat) (e : Env) (x : exn) :
  (k < n)%nat ->
  (forall j, (j < k)%nat -> no_match name (listing request j e)) ->
  listing request k e = Raise x ->
  poll request name node n e
  = (after_request request list_nodes_request (Nat.iter k (poll_round request) e),
     Raise x).
Proof.
  revert n e. induction k as [|k IH]; intros n e Hk Hbefore Hx.
  - destruct n as [|n]; [lia|]. rewrite poll_step, Hx. reflexivity.
  - destruct n as [|n]; [lia|]. rewrite poll_step.
    destruct (Hbefore 0%nat) as (nodes0 & -> & ->); [lia|].
    rewrite (IH n (poll_round request e)); [now rewrite Nat.iter_succ_r|lia| |].
    + intros j Hj. rewrite listing_shift. apply Hbefore. lia.
    + now rewrite listing_shift.
Qed.

(** X3: a listing that raises during polling ends the workflow.  When the
    listings before call [k + 1] found nothing and call [k + 1] raises,
    [create_node] raises that exception as it is, right after that call:
    it neither goes on polling nor returns the node built for the
    exhausted case. *)
Theorem create_node_listing_fails (kw : kwargs.t P) (e : Env)
    (name : string) (hostname service_type image server_key console_key : pyval)
    (resp : Response) (k : nat) (x : exn) :
  create_node_args kw = Ok (name, hostname, service_type, image, server_key, console_key) ->
  let create :=
    create_request urlencode name hostname service_type image server_key console_key in
  (request (conn e) create).2 = Ok resp ->
  (k < 20)%nat ->
  (forall j, (j < k)%nat ->
     no_match name (listing request j (after_request request create e))) ->
  listing request k (after_request request create e) = Raise x ->
  exists e',
    create_node request urlencode kw e = (e', Raise x)
    /\ trace e' = (trace e ++ Requested create :: concat (replicate k round_events)
                     ++ [Requested list_nodes_request])%list.
Proof.
  intros Hargs create Hcreate Hk Hbefore Hx. subst create.
  rewrite (create_node_run request urlencode kw e _ _ _ _ _ _ Hargs), Hcreate.
  rewrite (poll_raises name _ k LOGIN_ATTEMPTS _ x Hk Hbefore Hx).
  eexists. split; [reflexivity|].
  cbn [after_request trace]. rewrite trace_rounds. cbn [after_request trace].
  now rewrite <- !app_assoc.
Qed.

Lemma poll_keeps_name (name : string) (node : Node.t) (n : nat) (e e' : Env)
    (found : Node.t) :
  Node.name node = PyStr name ->
  poll request name node n e = (e', Ok found) ->
  Node.name found = PyStr name.
Proof.
  intros Hnode. revert e. induction n as [|n IH]; intros e.
  - cbn. now intros [= _ <-].
  - rewrite poll_step. destruct (listing request 0 e) as [nodes|x]; [|discriminate].
    destruct (named name nodes) as [|created rest] eqn:Hnamed.
    + apply IH.
    + intros [= _ <-].
      destruct (filter_head _ _ _ _ Hnamed) as (before & after & _ & Hc & _).
      now apply eq_str_true.
Qed.

Lemma create_node_args_name (kw : kwargs.t P)
    (name : string) (hostname service_type image server_key console_key : pyval) :
  create_node_args kw = Ok (name, hostname, service_type, image, server_key, console_key) ->
  kwargs.name kw = Some name /\ name <> "".
Proof.
  unfold create_node_args.
  destruct kw as [kname khost ksize kimage ksk kck]. cbn.
  destruct kname as [[|c kname]|]; cbn; try discriminate.
  destruct ksize; cbn; try discriminate.
  destruct kimage; cbn; try discriminate.
  intros [= <- _ _ _ _ _]. split; [reflexivity|discriminate].
Qed.

(** X4: a node returned by [create_node], found in a listing or built for
    the exhausted case, always carries the name that was asked for. *)
Theorem create_node_returns_requested_name (kw : kwargs.t P) (e e' : Env)
    (node : Node.t) :
  create_node request urlencode kw e = (e', Ok node) ->
  exists name, kwargs.name kw = Some name /\ Node.name node = PyStr name.
Proof.
  intros Hrun.
  destruct (create_node_args kw) as [[[[[[name hostname] st] img] sk] ck]|x] eqn:Hargs.
  - rewrite (create_node_run request urlencode kw e _ _ _ _ _ _ Hargs) in Hrun.
    destruct (request (conn e) _).2; [|discriminate].
    exists name. split; [apply (create_node_args_name kw _ _ _ _ _ _ Hargs)|].
    eapply poll_keeps_name; [|exact Hrun]. reflexivity.
  - unfold create_node in Hrun. unfold mbind at 1, M_bind in Hrun.
    unfold lift at 1 in Hrun. rewrite Hargs in Hrun. discriminate.
Qed.
End WorkflowBounds.

(** ** The instance mapper: when it fails, and what it keeps *)

Lemma nested_get_unreadable (d : gmap string pyval) (key inner : string) :
  mapping_if_present (d !! key) = false ->
  nested_get (PyDict d) key inner = Raise (AttributeError "get").
Proof.
  unfold nested_get, Py.get. cbn [mbind result_bind].
  destruct (d !! key) as [[]|]; cbn; try discriminate; reflexivity.
Qed.

Lemma node_ips_unreadable (v : pyval) :
  address_field_ok v = false -> node_ips v = Raise (AttributeError "split").
Proof.
  unfold node_ips. destruct v; cbn; try discriminate;
    intros H; apply negb_false_iff in H; cbn in H; rewrite ?H; reflexivity.
Qed.

(** On a record it cannot read, the mapper raises. *)
Lemma to_node_unreadable (d : gmap string pyval) :
  present_fields_readable d = false ->
  exists x,
    _to_node (PyDict d) = Raise x
    /\ In x [TypeError "unhashable type"; AttributeError "split"; AttributeError "get"].
Proof.
  unfold present_fields_readable, _to_node. cbn [Py.get mbind result_bind].
  destruct (hashable (default PyNone (d !! "power_status"))) eqn:Hps.
  2:{ intros _. exists (TypeError "unhashable type").
      destruct (default PyNone (d !! "power_status")); try discriminate;
        (split; [reflexivity|cbn; auto]). }
  destruct (state_of_hashable _ Hps) as (st & -> & _). cbn [mbind result_bind].
  destruct (address_field_ok (default (PyStr "") (d !! "ipaddresses"))) eqn:Hip.
  2:{ intros _. exists (AttributeError "split").
      rewrite (node_ips_unreadable _ Hip). split; [reflexivity|cbn; auto]. }
  destruct (node_ips_readable _ Hip) as (pub & priv & -> & _). cbn [mbind result_bind].
  destruct (mapping_if_present (d !! "zone")) eqn:Hz.
  2:{ intros _. exists (AttributeError "get").
      rewrite (nested_get_unreadable _ _ _ Hz). split; [reflexivity|cbn; auto]. }
  rewrite (nested_get_readable _ _ _ Hz). cbn [mbind result_bind].
  destruct (mapping_if_present (d !! "image")) eqn:Hi.
  2:{ intros _. exists (AttributeError "get").
      rewrite (nested_get_unreadable _ _ _ Hi). split; [reflexivity|cbn; auto]. }
  rewrite (nested_get_readable _ _ _ Hi). cbn [mbind result_bind].
  destruct (mapping_if_present (d !! "service_type")) eqn:Hs; [discriminate|].
  intros _. exists (AttributeError "get").
  rewrite (nested_get_unreadable _ _ _ Hs). split; [reflexivity|cbn; auto].
Qed.

Lemma to_node_Ok_readable (d : gmap string pyval) (n : Node.t) :
  _to_node (PyDict d) = Ok n -> present_fields_readable d = true.
Proof.
  intros Hn. destruct (present_fields_readable d) eqn:Hd; [reflexivity|].
  destruct (to_node_unreadable d Hd) as (x & Hx & _). congruence.
Qed.

(** X5: the mapper returns a node exactly for the mappings whose present
    fields it can read (a hashable power status, an address field that is a
    string or falsy, and mappings for zone, image and service type).  On
    every other mapping it raises a [TypeError] for the power status or an
    [AttributeError], and on a record that is no mapping an
    [AttributeError]. *)
Theorem to_node_succeeds_iff_readable :
  (forall d : gmap string pyval,
      (exists n, _to_node (PyDict d) = Ok n) <-> present_fields_readable d = true)
  /\ (forall (d : gmap string pyval) x,
        _to_node (PyDict d) = Raise x ->
        In x [TypeError "unhashable type"; AttributeError "split"; AttributeError "get"])
  /\ (forall v, is_mapping v = false -> _to_node v = Raise (AttributeError "get")).
Proof.
  split; [|split].
  - intros d. split.
    + intros (n & Hn). exact (to_node_Ok_readable d n Hn).
    + intros Hd. destruct (to_node_readable d Hd) as (st & pub & priv & _ & _ & Hn).
      eauto.
  - intros d x Hx. destruct (present_fields_readable d) eqn:Hd.
    + destruct (to_node_readable d Hd) as (st & pub & priv & _ & _ & Hn). congruence.
    + destruct (to_node_unreadable d Hd) as (x' & Hx' & Hin). congruence.
  - intros v Hv. destruct v; try discriminate; reflexivity.
Qed.

(** X6: on every record the mapper accepts, the node is [RUNNING] exactly
    when the power status is the string ['on'], and [UNKNOWN] exactly when
    it is ['off'] or ['unknown']. *)
Theorem to_node_state_of_power_status (d : gmap string pyval) (n : Node.t) :
  _to_node (PyDict d) = Ok n ->
  (Node.state n = StateEnum RUNNING <-> d !! "power_status" = Some (PyStr "on"))
  /\ (Node.state n = StateEnum UNKNOWN
      <-> d !! "power_status" = Some (PyStr "off")
          \/ d !! "power_status" = Some (PyStr "unknown")).
Proof.
  intros Hn.
  pose proof (to_node_Ok_readable d n Hn) as Hd.
  destruct (to_node_readable d Hd) as (st & pub & priv & Hst & _ & Hn').
  rewrite Hn' in Hn. injection Hn as <-. cbn [Node.state].
  destruct (d !! "power_status") as [v|] eqn:Hv; cbn in Hst.
  2:{ injection Hst as <-. split; split; try discriminate; intros [|]; discriminate. }
  destruct v; cbn in Hst; try discriminate;
    try (injection Hst as <-; split; split; try discriminate; intros [|]; discriminate).
  rewrite NODE_STATE_MAP_lookup in Hst.
  destruct (String.eqb_spec s "on") as [->|Hon].
  { injection Hst as <-. split; split; try reflexivity; try discriminate.
    intros [|]; discriminate. }
  destruct (String.eqb_spec s "off") as [->|Hoff].
  { injection Hst as <-. split; split; try discriminate; auto. }
  destruct (String.eqb_spec s "unknown") as [->|Hunk].
  { injection Hst as <-. split; split; try discriminate; auto. }
  injection Hst as <-. split; split; try discriminate.
  - intros [= ->]. congruence.
  - intros [[= ->]|[= ->]]; congruence.
Qed.

Lemma split_length (sep : ascii) (s : string) :
  length (Py.split sep s) = S (count_char sep s).
Proof.
  induction s as [|c s IH]; [reflexivity|]. cbn [Py.split count_char].
  destruct (Ascii.eqb c sep); cbn [length]; [now rewrite IH|].
  destruct (Py.split sep s); cbn in *; lia.
Qed.

Lemma filter_partition_Permutation {A} (p : A -> bool) (l : list A) :
  (List.filter (fun a => negb (p a)) l ++ List.filter p l)%list ≡ₚ l.
Proof.
  induction l as [|a l IH]; [reflexivity|]. cbn [List.filter].
  destruct (p a); cbn [negb].
  - rewrite <- Permutation_middle. now constructor.
  - cbn. now constructor.
Qed.

(** X7: no address is lost or made up.  For a record with a non-empty
    address string, the public and the private addresses of the node
    together are the comma-separated pieces of the string with their spaces
    removed, each piece once: one more than the string has commas, empty
    pieces included. *)
Theorem to_node_keeps_every_address (d : gmap string pyval) (s : string) (n : Node.t) :
  d !! "ipaddresses" = Some (PyStr s) ->
  s <> "" ->
  _to_node (PyDict d) = Ok n ->
  exists pub priv,
    Node.public_ips n = PyList (PyStr <$> pub)
    /\ Node.private_ips n = PyList (PyStr <$> priv)
    /\ (pub ++ priv)%list ≡ₚ Py.remove_char " " <$> Py.split "," s
    /\ (length pub + length priv)%nat = S (count_char "," s).
Proof.
  intros Hs Hne Hn.
  pose proof (to_node_Ok_readable d n Hn) as Hd.
  destruct (to_node_readable d Hd) as (st & pub & priv & _ & Hips & Hn').
  rewrite Hn' in Hn. injection Hn as <-. cbn [Node.public_ips Node.private_ips].
  rewrite Hs in Hips. change (node_ips (PyStr s) = Ok (pub, priv)) in Hips.
  rewrite node_ips_str in Hips.
  injection Hips as <- <-.
  assert (Htok : address_tokens s = Py.remove_char " " <$> Py.split "," s)
    by (destruct s; [congruence|reflexivity]).
  rewrite Htok. eexists _, _. split; [reflexivity|]. split; [reflexivity|].
  pose proof (filter_partition_Permutation is_private
                (Py.remove_char " " <$> Py.split "," s)) as Hperm.
  split; [exact Hperm|].
  rewrite <- length_app, Hperm, length_fmap. apply split_length.
Qed.

(** ** Listings: one entity per entry, in order, or no listing at all *)

Lemma mapM_result_Ok {A B} (f : A -> result B) (l : list A) (l' : list B) :
  mapM_result f l = Ok l' <-> Forall2 (fun a b => f a = Ok b) l l'.
Proof.
  revert l'. induction l as [|a l IH]; intros l'; cbn [mapM_result].
  - split; [intros [= <-]; constructor|inversion 1; reflexivity].
  - split.
    + destruct (f a) as [b|x] eqn:Hb; cbn [mbind result_bind]; [|discriminate].
      destruct (mapM_result f l) as [bs|x] eqn:Hbs; cbn [mbind result_bind];
        [|discriminate].
      intros [= <-]. constructor; [exact Hb|]. now apply IH.
    + inversion 1 as [|a' b l0 bs Hb Hbs]; subst. rewrite Hb. cbn [mbind result_bind].
      apply IH in Hbs. rewrite Hbs. reflexivity.
Qed.

Lemma mapM_result_Raise {A B} (f : A -> result B) (before after : list A) (a : A)
    (x : exn) :
  Forall (fun u => exists b, f u = Ok b) before ->
  f a = Raise x ->
  mapM_result f (before ++ a :: after) = Raise x.
Proof.
  intros Hbefore Ha. induction Hbefore as [|u before (b & Hu) _ IH]; cbn.
  - now rewrite Ha.
  - now rewrite Hu, IH.
Qed.

Lemma filterM_result_total {A} (p : A -> result bool) (q : A -> bool) (l : list A) :
  Forall (fun a => p a = Ok (q a)) l ->
  filterM_result p l = Ok (List.filter q l).
Proof.
  induction 1 as [|a l Ha _ IH]; cbn; [reflexivity|].
  rewrite Ha, IH. cbn. now destruct (q a).
Qed.

Lemma filterM_result_Raise {A} (p : A -> result bool) (before after : list A) (a : A)
    (x : exn) :
  Forall (fun u => exists b, p u = Ok b) before ->
  p a = Raise x ->
  filterM_result p (before ++ a :: after) = Raise x.
Proof.
  intros Hbefore Ha. induction Hbefore as [|u before (b & Hu) _ IH]; cbn.
  - now rewrite Ha.
  - now rewrite Hu, IH.
Qed.

Lemma bind_Ok {A B} (m : result A) (f : A -> result B) (b : B) :
  m ≫= f = Ok b -> exists a, m = Ok a /\ f a = Ok b.
Proof. destruct m as [a|x]; [eauto|discriminate]. Qed.

Section ListingOrder.
Context {World : Type}.
Variable request : World -> Request -> World * result Response.
Variable str : pyval -> string.
Context {P : Type}.
Variable price_lt : P -> P -> bool.
Variable _get_size_price : string -> result P.

(** X8: a listing of nodes that returns holds one node per entry under
    ['data'], in the order of the entries, each the image of its entry under
    the mapper; the request is the only thing added to the trace. *)
Theorem list_nodes_in_order (e e' : Env) (nodes : list Node.t) :
  list_nodes request e = (e', Ok nodes) ->
  exists resp values,
    (request (conn e) list_nodes_request).2 = Ok resp
    /\ values_of resp = Ok values
    /\ Forall2 (fun value node => _to_node value = Ok node) values nodes
    /\ length nodes = length values
    /\ trace e' = (trace e ++ [Requested list_nodes_request])%list.
Proof.
  rewrite list_nodes_run. intros [= <- Hnodes].
  apply bind_Ok in Hnodes as (resp & Hresp & Hnodes). unfold nodes_of in Hnodes.
  apply bind_Ok in Hnodes as (values & Hvalues & Hnodes).
  apply mapM_result_Ok in Hnodes.
  exists resp, values. repeat split; try assumption.
  symmetry. eapply Forall2_length. exact Hnodes.
Qed.

(** X9: one entry the mapper rejects spoils the whole listing.  When the
    entries before it map to nodes and it does not, [list_nodes] raises its
    exception and returns no node at all. *)
Theorem list_nodes_first_failure (e : Env) (resp : Response)
    (before after : list pyval) (value : pyval) (x : exn) :
  (request (conn e) list_nodes_request).2 = Ok resp ->
  values_of resp = Ok (before ++ value :: after)%list ->
  Forall (fun v => exists node, _to_node v = Ok node) before ->
  _to_node value = Raise x ->
  list_nodes request e = (after_request request list_nodes_request e, Raise x).
Proof.
  intros Hresp Hvalues Hbefore Hx. rewrite list_nodes_run, Hresp.
  cbn [mbind result_bind]. unfold nodes_of. rewrite Hvalues. cbn [mbind result_bind].
  now rewrite (mapM_result_Raise _ _ _ _ _ Hbefore Hx).
Qed.

Lemma to_location_Ok (value : pyval) (loc : NodeLocation.t) :
  to_location value = Ok loc ->
  exists m, value = PyDict m
    /\ loc = NodeLocation.make (default PyNone (m !! "id")) (default PyNone (m !! "name"))
               "US".
Proof.
  unfold to_location. destruct value; cbn; try discriminate.
  intros [= <-]. eauto.
Qed.

(** X10: a listing of locations that returns holds one location per entry,
    in order; every entry was a mapping, and its location carries the
    entry's id and name ([None] where missing) and the country ["US"]. *)
Theorem list_locations_in_order (e e' : Env) (locations : list NodeLocation.t) :
  list_locations request e = (e', Ok locations) ->
  exists resp values,
    (request (conn e) (GET "/datacenter/")).2 = Ok resp
    /\ values_of resp = Ok values
    /\ Forall2 (fun value loc =>
                  exists m, value = PyDict m
                    /\ NodeLocation.id loc = default PyNone (m !! "id")
                    /\ NodeLocation.name loc = default PyNone (m !! "name")
                    /\ NodeLocation.country loc = "US") values locations.
Proof.
  unfold list_locations. rewrite listing_run. intros Hrun.
  destruct ((request (conn e) (GET "/datacenter/")).2 ≫= values_of) as [values|x] eqn:Hv;
    [|discriminate].
  apply bind_Ok in Hv as (resp & Hresp & Hvalues).
  injection Hrun as _ Hlocs. apply mapM_result_Ok in Hlocs.
  exists resp, values. split; [exact Hresp|]. split; [exact Hvalues|].
  eapply Forall2_impl; [exact Hlocs|]. cbn. intros value loc Hloc.
  apply to_location_Ok in Hloc as (m & -> & ->). exists m. auto.
Qed.

Lemma to_image_Ok (value : pyval) (img : NodeImage.t) :
  to_image value = Ok img ->
  exists m, value = PyDict m
    /\ img = NodeImage.make (default PyNone (m !! "id"))
               (default PyNone (m !! "friendly_name"))
               {[ "architecture" := default PyNone (m !! "architecture");
                  "disks" := default PyNone (m !! "disks");
                  "billable_type" := default PyNone (m !! "billable_type");
                  "pcpus" := default PyNone (m !! "pcpus");
                  "cores" := default PyNone (m !! "cores");
                  "uri" := default PyNone (m !! "uri");
                  "storage" := default PyNone (m !! "storage") ]}.
Proof.
  unfold to_image. destruct value; cbn; try discriminate.
  intros [= <-]. eauto.
Qed.

(** X11: a listing of images that returns holds one image per entry, in
    order; an image is named after the entry's ['friendly_name'], and its
    [extra] holds each of the seven catalogued fields with the entry's
    value, [None] where the entry has none, and nothing else. *)
Theorem list_images_in_order (e e' : Env) (images : list NodeImage.t) :
  list_images request e = (e', Ok images) ->
  exists resp values,
    (request (conn e) (GET "/image/server/")).2 = Ok resp
    /\ values_of resp = Ok values
    /\ Forall2 (fun value img =>
                  exists m, value = PyDict m
                    /\ NodeImage.id img = default PyNone (m !! "id")
                    /\ NodeImage.name img = default PyNone (m !! "friendly_name")
                    /\ forall k,
                         NodeImage.extra img !! k
                         = if bool_decide
                                (k ∈ ["architecture"; "disks"; "billable_type"; "pcpus";
                                      "cores"; "uri"; "storage"])
                           then Some (default PyNone (m !! k))
                           else None) values images.
Proof.
  unfold list_images. rewrite listing_run. intros Hrun.
  destruct ((request (conn e) (GET "/image/server/")).2 ≫= values_of)
    as [values|x] eqn:Hv; [|discriminate].
  apply bind_Ok in Hv as (resp & Hresp & Hvalues).
  injection Hrun as _ Himgs. apply mapM_result_Ok in Himgs.
  exists resp, values. split; [exact Hresp|]. split; [exact Hvalues|].
  eapply Forall2_impl; [exact Himgs|]. cbn. intros value img Himg.
  apply to_image_Ok in Himg as (m & -> & ->). exists m.
  split; [reflexivity|]. split; [reflexivity|]. split; [reflexivity|].
  intros k. cbn [NodeImage.extra].
  repeat match goal with
    | |- context [<[ ?k' := _ ]> _ !! k] =>
        destruct (decide (k' = k)) as [<-|];
        [rewrite lookup_insert_eq; reflexivity|rewrite lookup_insert_ne by assumption]
    end.
  destruct (decide ("storage" = k)) as [<-|Hk].
  - rewrite lookup_singleton_eq. reflexivity.
  - rewrite lookup_singleton_ne by assumption.
    rewrite bool_decide_eq_false_2; [reflexivity|].
    rewrite !elem_of_cons, elem_of_nil.
    intros [H|[H|[H|[H|[H|[H|[H|[]]]]]]]]; congruence.
Qed.
End ListingOrder.

(** ** Keys *)

Lemma in_key_group_mapping (g : Z) (key : pyval) :
  is_mapping key = true -> in_key_group g key = Ok (in_group g key).
Proof. destruct key; try discriminate. reflexivity. Qed.

Lemma in_key_group_other (g : Z) (key : pyval) :
  is_mapping key = false -> in_key_group g key = Raise (AttributeError "get").
Proof. destruct key; try discriminate; reflexivity. Qed.

Section Keys.
Context {World : Type}.
Variable request : World -> Request -> World * result Response.
Variable urlencode : gmap string pyval -> string.
Variable str : pyval -> string.

Lemma list_all_keys_run (key_group : option Z) (e : Env) (resp : Response)
    (keys : list pyval) :
  (request (conn e) (GET "/key/")).2 = Ok resp ->
  values_of resp = Ok keys ->
  (list_all_keys request key_group e).2
  = match key_group with
    | Some g => if g =? 0 then Ok keys else filterM_result (in_key_group g) keys
    | None => Ok keys
    end.
Proof.
  intros Hresp Hkeys. unfold list_all_keys. rewrite listing_run, Hresp.
  cbn [mbind result_bind]. rewrite Hkeys. unfold _to_ssh_key. rewrite list_fmap_id.
  destruct key_group as [g|]; [|reflexivity].
  cbn [Py.truthy]. destruct (g =? 0); reflexivity.
Qed.

(** X12: with a key group that is not zero, and a provider whose entries
    under ['data'] are all mappings, [list_all_keys] returns exactly the
    entries whose ['key_group'] equals the group, in the provider's order;
    an entry without ['key_group'] is never among them. *)
Theorem list_all_keys_filters (g : Z) (e : Env) (resp : Response) (keys : list pyval) :
  g <> 0 ->
  (request (conn e) (GET "/key/")).2 = Ok resp ->
  values_of resp = Ok keys ->
  Forall (fun key => is_mapping key = true) keys ->
  (list_all_keys request (Some g) e).2 = Ok (List.filter (in_group g) keys)
  /\ (forall m, m !! "key_group" = None -> in_group g (PyDict m) = false).
Proof.
  intros Hg Hresp Hkeys Hmaps. split.
  - rewrite (list_all_keys_run _ _ _ _ Hresp Hkeys).
    destruct (Z.eqb_spec g 0) as [|_]; [contradiction|].
    apply filterM_result_total. eapply Forall_impl; [exact Hmaps|].
    cbn. intros key. apply in_key_group_mapping.
  - intros m Hm. cbn. now rewrite Hm.
Qed.

(** X13: without a key group, the key listings hand the entries under
    ['data'] through untouched, whatever they are: [list_ssh_keys],
    [list_password_keys] and [list_all_keys] with no group.  The group [0]
    counts as no group: [list_all_keys(0)] returns every key, not the keys
    of group 0. *)
Theorem key_listings_pass_through (e : Env) (resp : Response) (keys : list pyval) :
  values_of resp = Ok keys ->
  ((request (conn e) (GET "/key/sshrsa/")).2 = Ok resp ->
     (list_ssh_keys request e).2 = Ok keys)
  /\ ((request (conn e) (GET "/key/password/")).2 = Ok resp ->
        (list_password_keys request e).2 = Ok keys)
  /\ ((request (conn e) (GET "/key/")).2 = Ok resp ->
        (list_all_keys request None e).2 = Ok keys
        /\ (list_all_keys request (Some 0) e).2 = Ok keys).
Proof.
  intros Hkeys. split; [|split].
  - intros Hresp. unfold list_ssh_keys. rewrite listing_run, Hresp.
    cbn [mbind result_bind]. rewrite Hkeys. unfold _to_ssh_key.
    now rewrite list_fmap_id.
  - intros Hresp. unfold list_password_keys. rewrite listing_run, Hresp.
    cbn [mbind result_bind]. rewrite Hkeys. unfold _to_ssh_key.
    now rewrite list_fmap_id.
  - intros Hresp. now rewrite !(list_all_keys_run _ _ _ _ Hresp Hkeys).
Qed.

(** X14: filtering needs every entry up to the last to be a mapping.  With
    a key group that is not zero, the first entry that is not a mapping
    makes [list_all_keys] raise an [AttributeError], although the same
    answer lists fine without a group. *)
Theorem list_all_keys_filter_rejects_entry (g : Z) (e : Env) (resp : Response)
    (before after : list pyval) (key : pyval) :
  g <> 0 ->
  (request (conn e) (GET "/key/")).2 = Ok resp ->
  values_of resp = Ok (before ++ key :: after)%list ->
  Forall (fun k => is_mapping k = true) before ->
  is_mapping key = false ->
  (list_all_keys request (Some g) e).2 = Raise (AttributeError "get")
  /\ (list_all_keys request None e).2 = Ok (before ++ key :: after)%list.
Proof.
  intros Hg Hresp Hkeys Hbefore Hkey.
  rewrite !(list_all_keys_run _ _ _ _ Hresp Hkeys).
  destruct (Z.eqb_spec g 0) as [|_]; [contradiction|]. split; [|reflexivity].
  apply filterM_result_Raise; [|now apply in_key_group_other].
  eapply Forall_impl; [exact Hbefore|]. cbn. intros k Hk.
  rewrite (in_key_group_mapping _ _ Hk). eauto.
Qed.
End Keys.

(** ** The size catalog, continued *)

Lemma sorted_of_sorted {A K} (lt : K -> K -> bool) (key : A -> K) (l : list A) :
  StronglySorted (in_order lt key) l -> Py.sorted lt key l = l.
Proof.
  induction 1 as [|x l Hl IH Hx]; [reflexivity|]. cbn [Py.sorted]. rewrite IH.
  destruct Hx as [|y l' Hy _]; [reflexivity|]. cbn [Py.insert].
  unfold in_order in Hy. now rewrite Hy.
Qed.

Section SizeCatalogMore.
Context {World : Type}.
Variable request : World -> Request -> World * result Response.
Variable str : pyval -> string.
Context {P : Type}.
Variable price_lt : P -> P -> bool.
Variable _get_size_price : string -> result P.

Lemma list_sizes_run (e : Env) :
  list_sizes request str price_lt _get_size_price e
  = (after_request request (GET "/server/type/cloud/") e,
     resp ← (request (conn e) (GET "/server/type/cloud/")).2;
     values ← values_of resp;
     sizes ← mapM_result (to_size str _get_size_price) values;
     Ok (Py.sorted price_lt NodeSize.price sizes)).
Proof.
  unfold list_sizes. rewrite listing_run.
  destruct (request (conn e) (GET "/server/type/cloud/")).2 as [resp|x]; [|reflexivity].
  cbn [mbind result_bind]. destruct (values_of resp) as [values|x]; [|reflexivity].
  cbn [mbind result_bind]. unfold mbind at 1, M_bind, lift.
  destruct (mapM_result (to_size str _get_size_price) values); reflexivity.
Qed.

Lemma to_size_Ok (value : pyval) (size : NodeSize.t P) :
  to_size str _get_size_price value = Ok size ->
  exists m, value = PyDict m
    /\ NodeSize.id size = default PyNone (m !! "id")
    /\ NodeSize.name size = default PyNone (m !! "friendly_name")
    /\ NodeSize.ram size = default PyNone (m !! "ram")
    /\ NodeSize.disk size = default PyNone (m !! "storage")
    /\ NodeSize.bandwidth size = PyNone
    /\ _get_size_price (str (NodeSize.id size)) = Ok (NodeSize.price size).
Proof.
  unfold to_size. destruct value as [| | | | |m]; cbn; try discriminate.
  destruct (_get_size_price (str (default PyNone (m !! "id")))) as [p|x] eqn:Hp;
    cbn; [|discriminate].
  intros [= <-]. exists m. cbn. auto 10.
Qed.

(** X15: every size [list_sizes] returns comes from one entry of the
    answer: it has that entry's id, name, ram and storage, no bandwidth, and
    the price the lookup gives for [str(id)]; there are as many sizes as
    entries. *)
Theorem list_sizes_entries (e e' : Env) (sizes : list (NodeSize.t P)) :
  list_sizes request str price_lt _get_size_price e = (e', Ok sizes) ->
  exists resp values,
    (request (conn e) (GET "/server/type/cloud/")).2 = Ok resp
    /\ values_of resp = Ok values
    /\ length sizes = length values
    /\ Forall (fun size =>
                 NodeSize.bandwidth size = PyNone
                 /\ _get_size_price (str (NodeSize.id size)) = Ok (NodeSize.price size)
                 /\ exists m, In (PyDict m) values
                      /\ NodeSize.id size = default PyNone (m !! "id")
                      /\ NodeSize.name size = default PyNone (m !! "friendly_name")
                      /\ NodeSize.ram size = default PyNone (m !! "ram")
                      /\ NodeSize.disk size = default PyNone (m !! "storage")) sizes.
Proof.
  rewrite list_sizes_run. intros [= _ Hrun].
  apply bind_Ok in Hrun as (resp & Hresp & Hrun).
  apply bind_Ok in Hrun as (values & Hvalues & Hrun).
  apply bind_Ok in Hrun as (catalog & Hcatalog & Hrun). injection Hrun as <-.
  apply mapM_result_Ok in Hcatalog.
  exists resp, values. split; [exact Hresp|]. split; [exact Hvalues|].
  pose proof (sorted_Permutation price_lt NodeSize.price catalog) as Hperm.
  split.
  - rewrite Hperm. symmetry. eapply Forall2_length. exact Hcatalog.
  - rewrite Hperm. clear Hperm Hvalues. induction Hcatalog as [|v s values catalog Hs _ IH].
    + constructor.
    + constructor.
      * apply to_size_Ok in Hs as (m & -> & Hid & Hname & Hram & Hdisk & Hbw & Hprice).
        split; [exact Hbw|]. split; [exact Hprice|].
        exists m. split; [left; reflexivity|auto].
      * eapply Forall_impl; [exact IH|]. cbn.
        intros size (Hbw & Hprice & m & Hin & Hrest).
        split; [exact Hbw|]. split; [exact Hprice|]. exists m. split; [right; exact Hin|].
        exact Hrest.
Qed.

(** X16: a size without a price spoils the catalog.  When the entries
    before it map to sizes and the price lookup for its id raises,
    [list_sizes] raises that exception and returns no size at all. *)
Theorem list_sizes_price_failure (e : Env) (resp : Response)
    (before after : list pyval) (m : gmap string pyval) (x : exn) :
  (request (conn e) (GET "/server/type/cloud/")).2 = Ok resp ->
  values_of resp = Ok (before ++ PyDict m :: after)%list ->
  Forall (fun v => exists size, to_size str _get_size_price v = Ok size) before ->
  _get_size_price (str (default PyNone (m !! "id"))) = Raise x ->
  (list_sizes request str price_lt _get_size_price e).2 = Raise x.
Proof.
  intros Hresp Hvalues Hbefore Hx. rewrite list_sizes_run, Hresp. cbn [snd mbind result_bind].
  rewrite Hvalues. cbn [mbind result_bind].
  rewrite (mapM_result_Raise _ before after (PyDict m) x Hbefore); [reflexivity|].
  unfold to_size. cbn. now rewrite Hx.
Qed.

(** X17: a catalog the provider already sends in order of price comes back
    as it is. *)
Theorem list_sizes_keeps_sorted_catalog (e : Env) (resp : Response)
    (values : list pyval) (catalog : list (NodeSize.t P)) :
  (request (conn e) (GET "/server/type/cloud/")).2 = Ok resp ->
  values_of resp = Ok values ->
  mapM_result (to_size str _get_size_price) values = Ok catalog ->
  StronglySorted (in_order price_lt NodeSize.price) catalog ->
  (list_sizes request str price_lt _get_size_price e).2 = Ok catalog.
Proof.
  intros Hresp Hvalues Hcatalog Hsorted. rewrite list_sizes_run, Hresp.
  cbn [snd mbind result_bind]. rewrite Hvalues. cbn [mbind result_bind].
  rewrite Hcatalog. cbn [mbind result_bind]. now rewrite sorted_of_sorted.
Qed.
End SizeCatalogMore.

(** ** Commands on a node *)

Section CommandProperties.
Context {World : Type}.
Variable request : World -> Request -> World * result Response.
Variable urlencode : gmap string pyval -> string.
Variable str : pyval -> string.

Lemma command_run (r : Request) (e : Env) :
  (resp ← connection_request request r;
   response ← lift (Py.get (object resp) "response" PyNone);
   mret (Py.in_ints response VALID_RESPONSE_CODES)) e
  = (after_request request r e,
     resp ← (request (conn e) r).2;
     response ← Py.get (object resp) "response" PyNone;
     Ok (Py.in_ints response VALID_RESPONSE_CODES)).
Proof.
  unfold mbind at 1, M_bind. rewrite connection_request_run.
  destruct (request (conn e) r).2 as [resp|x]; [|reflexivity].
  cbn [mbind result_bind]. unfold mbind at 1, M_bind, lift.
  destruct (Py.get (object resp) "response" PyNone); reflexivity.
Qed.

Lemma command_returns (r : Request) (e e' : Env) (b : bool) :
  (after_request request r e,
   resp ← (request (conn e) r).2;
   response ← Py.get (object resp) "response" PyNone;
   Ok (Py.in_ints response VALID_RESPONSE_CODES)) = (e', Ok b) ->
  exists d,
    answers request e r d
    /\ e' = after_request request r e
    /\ (b = true <-> exists c, d !! "response" = Some (PyInt c)
                              /\ In c [200; 201; 202; 204])
    /\ (d !! "response" = None -> b = false).
Proof.
  intros [= <- Hb]. unfold answers.
  destruct (request (conn e) r).2 as [[obj]|x]; [|discriminate].
  cbn [mbind result_bind object] in Hb.
  destruct obj as [| | | | |d]; try discriminate.
  cbn [mbind result_bind Py.get] in Hb. injection Hb as <-. exists d.
  split; [reflexivity|]. split; [reflexivity|]. split.
  - change (Py.in_ints (default PyNone (d !! "response")) VALID_RESPONSE_CODES = true
            <-> exists c, d !! "response" = Some (PyInt c)
                          /\ In c [200; 201; 202; 204]).
    rewrite in_valid_codes. split.
    + intros (c & Hc & Hin). exists c. split; [|exact Hin].
      destruct (d !! "response"); cbn in Hc; congruence.
    + intros (c & -> & Hin). exists c. auto.
  - intros ->. reflexivity.
Qed.

Lemma command_reports (run : M bool) (r : Request) (e : Env) :
  run e = (after_request request r e,
           resp ← (request (conn e) r).2;
           response ← Py.get (object resp) "response" PyNone;
           Ok (Py.in_ints response VALID_RESPONSE_CODES)) ->
  reports_on request run r e.
Proof.
  intros Hrun. unfold reports_on. rewrite Hrun. cbn [fst snd].
  split; [reflexivity|]. split.
  - intros x ->. reflexivity.
  - intros b Hb.
    destruct (command_returns r e (after_request request r e) b) as (d & Ha & _ & Hiff & Hnone).
    + now rewrite Hb.
    + exists d. auto.
Qed.

(** X18: each command on a node sends one request, its own, and reports
    on the answer.  [reboot_node], [ex_start_node] and [ex_stop_node] POST
    without a body to [initiator/restart/], [initiator/start/] and
    [initiator/stop/] under the node's path; [destroy_node] sends a DELETE
    to the node's path; [rename_node] sends a PUT to the node's path whose
    form holds the name, and the hostname only when one is given.  In each
    case that request is the only one made, an exception of the provider is
    the command's exception, and when the command returns, the provider
    answered with a mapping and the value is [True] exactly when its
    ['response'] is one of the integers 200, 201, 202, 204 ([False] when
    there is none). *)
Theorem node_command_result (node : Node.t) (name hostname : pyval) (e : Env) :
  let id := str (Node.id node) in
  let form : gmap string pyval :=
    if Py.truthy hostname then {[ "hostname" := hostname; "name" := name ]}
    else {[ "name" := name ]} in
  reports_on request (reboot_node request str node)
    (POST_empty ("/server/cloud/" +:+ id +:+ "/initiator/restart/")) e
  /\ reports_on request (ex_start_node request str node)
       (POST_empty ("/server/cloud/" +:+ id +:+ "/initiator/start/")) e
  /\ reports_on request (ex_stop_node request str node)
       (POST_empty ("/server/cloud/" +:+ id +:+ "/initiator/stop/")) e
  /\ reports_on request (destroy_node request str node)
       (DELETE ("/server/cloud/" +:+ id +:+ "/")) e
  /\ reports_on request (rename_node request urlencode str node name hostname)
       (PUT ("/server/cloud/" +:+ id +:+ "/") (urlencode form)) e.
Proof.
  intros id form. subst id.
  split; [apply command_reports; unfold reboot_node; apply command_run|].
  split; [apply command_reports; unfold ex_start_node; apply command_run|].
  split; [apply command_reports; unfold ex_stop_node; apply command_run|].
  split; [apply command_reports; unfold destroy_node; apply command_run|].
  apply command_reports. unfold rename_node. rewrite command_run.
  subst form. destruct (Py.truthy hostname); reflexivity.
Qed.

(** *** Adding keys *)

Lemma created_id_spec (d : gmap string pyval) :
  created_id (PyDict d) = created_id_of d.
Proof.
  unfold created_id, created_id_of. cbn [Py.get mbind result_bind].
  destruct (d !! "data") as [[]|]; cbn; try reflexivity.
Qed.

Lemma add_key_run (r : Request) (e : Env) :
  (resp ← try_exceptM (connection_request request r) (fun x => raise x);
   lift (created_id (object resp))) e
  = (after_request request r e,
     resp ← (request (conn e) r).2; created_id (object resp)).
Proof.
  unfold mbind at 1, M_bind. unfold try_exceptM. rewrite connection_request_run.
  destruct (request (conn e) r).2; reflexivity.
Qed.

(** X19: [add_ssh_key] sends one POST with the name, the public key and
    the key group.  When the provider answers with a mapping, the result is
    the ['id'] under ['data']; it is the empty string when ['data'] or its
    ['id'] is missing, and an [AttributeError] when ['data'] is there but is
    no mapping. *)
Theorem add_ssh_key_result (name public_key key_group : pyval) (e : Env)
    (d : gmap string pyval) :
  let r := POST "/key/sshrsa/"
             (urlencode {[ "name" := name; "public_key" := public_key;
                           "key_group" := key_group ]}) in
  answers request e r d ->
  add_ssh_key request urlencode name public_key key_group e
  = (after_request request r e, created_id_of d).
Proof.
  intros r Hd. unfold add_ssh_key. rewrite add_key_run. fold r. rewrite Hd.
  cbn [mbind result_bind object]. now rewrite created_id_spec.
Qed.
End CommandProperties.

(** ** Passwords *)

Section Passwords.
Context {World : Type}.
Variable request : World -> Request -> World * result Response.
Variable urlencode : gmap string pyval -> string.
Context {Rand : Type}.
Variable random_choice : Rand -> string -> Rand * result ascii.

Lemma bind_lift_Ok {A B} (a : A) (k : A -> @M World B) (e : Env) :
  (x ← lift (Ok a); k x) e = k a e.
Proof. reflexivity. Qed.

Lemma random_chars_drawn (draws : nat) (chars : string) (g : Rand) :
  draws_from_sequence random_choice ->
  chars <> "" ->
  exists g' password,
    random_chars random_choice draws chars g = (g', Ok password)
    /\ String.length password = draws
    /\ Forall (fun c => In c (chars_of chars)) (chars_of password).
Proof.
  intros Hdraw Hchars. revert g. induction draws as [|draws IH]; intros g.
  - exists g, "". repeat split. constructor.
  - cbn [random_chars]. destruct (Hdraw g chars Hchars) as (c & Hc & Hin).
    destruct (random_choice g chars) as [g1 r]. cbn in Hc. subst r.
    destruct (IH g1) as (g2 & password & -> & Hlen & Hall).
    exists g2, (String c password). split; [reflexivity|]. split.
    + cbn. now rewrite Hlen.
    + constructor; assumption.
Qed.

(** X20: with a generator that draws from the sequence it is given, and a
    sequence that is not empty, [random_password] returns a password of
    exactly [size] characters, all of them from the sequence; a [size] of
    zero or less gives the empty password without a draw. *)
Theorem random_password_shape (size : Z) (chars : string) (g : Rand) :
  draws_from_sequence random_choice ->
  chars <> "" ->
  (exists g' password,
      random_password random_choice size chars g = (g', Ok password)
      /\ Z.of_nat (String.length password) = Z.max 0 size
      /\ Forall (fun c => In c (chars_of chars)) (chars_of password))
  /\ (size <= 0 -> random_password random_choice size chars g = (g, Ok "")).
Proof.
  intros Hdraw Hchars. split.
  - unfold random_password.
    destruct (random_chars_drawn (Z.to_nat size) chars g Hdraw Hchars)
      as (g' & password & Hrun & Hlen & Hall).
    exists g', password. split; [exact Hrun|]. split; [|exact Hall]. lia.
  - intros Hsize. unfold random_password.
    replace (Z.to_nat size) with 0%nat by lia. reflexivity.
Qed.

(** X21: a password the caller supplies is sent as it is, and the
    generator is left alone.  The result is read from the answer as for
    [add_ssh_key]. *)
Theorem add_password_key_given (name password key_group : pyval) (g : Rand) (e : Env)
    (d : gmap string pyval) :
  Py.truthy password = true ->
  let r := POST "/key/password/"
             (urlencode {[ "name" := name; "password" := password;
                           "key_group" := key_group ]}) in
  answers request e r d ->
  add_password_key request urlencode random_choice name password key_group g e
  = (g, (after_request request r e, created_id_of d)).
Proof.
  intros Hpw r Hd. unfold add_password_key. rewrite Hpw. cbn [negb].
  rewrite bind_lift_Ok, add_key_run. fold r. rewrite Hd.
  cbn [mbind result_bind object]. now rewrite created_id_spec.
Qed.

(** X22: without a password (none, or an empty one), [add_password_key]
    sends a generated one: a string of eight characters, each a lowercase
    letter or a digit, given a generator that draws from its sequence. *)
Theorem add_password_key_generated (name password key_group : pyval) (g : Rand)
    (e : Env) :
  draws_from_sequence random_choice ->
  Py.truthy password = false ->
  exists generated,
    String.length generated = 8%nat
    /\ Forall (fun c => In c (chars_of lowercase_and_digits)) (chars_of generated)
    /\ trace (add_password_key request urlencode random_choice name password
                key_group g e).2.1
       = (trace e
            ++ [Requested
                  (POST "/key/password/"
                     (urlencode {[ "name" := name; "password" := PyStr generated;
                                   "key_group" := key_group ]}))])%list.
Proof.
  intros Hdraw Hpw. unfold add_password_key. rewrite Hpw. cbn [negb].
  unfold random_password. change (Z.to_nat 8) with 8%nat.
  destruct (random_chars_drawn 8 lowercase_and_digits g Hdraw)
    as (g' & generated & Hrun & Hlen & Hall); [discriminate|].
  rewrite Hrun. exists generated. split; [exact Hlen|]. split; [exact Hall|].
  cbn [snd fst]. rewrite bind_lift_Ok, add_key_run. reflexivity.
Qed.
End Passwords.

(** ** The authorisation header *)

(** X23: [add_default_headers] sets ['Authorization'] to ["Basic "]
    followed by the encoding of [user_id:key], replacing whatever the caller
    had put there, and leaves every other header as it was; adding the
    defaults a second time changes nothing. *)
Theorem add_default_headers_sets_authorization (b64encode : string -> string)
    (user_id key : string) (headers : gmap string string) :
  let headers' := add_default_headers b64encode user_id key headers in
  headers' !! "Authorization" = Some ("Basic " +:+ b64encode (user_id +:+ ":" +:+ key))
  /\ (forall h, h <> "Authorization" -> headers' !! h = headers !! h)
  /\ add_default_headers b64encode user_id key headers' = headers'.
Proof.
  cbv zeta. unfold add_default_headers. split; [apply lookup_insert_eq|]. split.
  - intros h Hh. now apply lookup_insert_ne.
  - apply insert_insert_eq.
Qed.

(** ** The further properties on concrete exchanges *)

Lemma create_node_create_fails_witness :
  exists e',
    create_node Fixture.request Fixture.urlencode Fixture.staging
      (Fixture.start [Raise (InvalidCredsError "Authorization Failed")])
    = (e', Raise (ExceptionFmt "Failed to create node %s"
                    (InvalidCredsError "Authorization Failed")))
    /\ length (trace e') = 1%nat.
Proof.
  edestruct (create_node_create_fails Fixture.request Fixture.urlencode Fixture.staging
               (Fixture.start [Raise (InvalidCredsError "Authorization Failed")]))
    as (e' & Hrun & Htrace).
  - reflexivity.
  - reflexivity.
  - exists e'. split; [exact Hrun|]. now rewrite Htrace.
Defined.

Lemma create_node_listing_fails_witness :
  exists e',
    create_node Fixture.request Fixture.urlencode Fixture.staging
      (Fixture.start [Fixture.accepted; Fixture.unrelated;
                      Raise (InvalidCredsError "Authorization Failed")])
    = (e', Raise (InvalidCredsError "Authorization Failed"))
    /\ listing_calls (trace e') = 2%nat.
Proof.
  edestruct (create_node_listing_fails Fixture.request Fixture.urlencode Fixture.staging
               (Fixture.start [Fixture.accepted; Fixture.unrelated;
                               Raise (InvalidCredsError "Authorization Failed")]))
    with (k := 1%nat) as (e' & Hrun & Htrace).
  - reflexivity.
  - reflexivity.
  - lia.
  - intros j Hj. destruct j as [|j]; [eexists; split; reflexivity|lia].
  - reflexivity.
  - exists e'. split; [exact Hrun|]. now rewrite Htrace.
Defined.

Lemma create_node_returns_requested_name_witness :
  exists node name,
    (create_node Fixture.request Fixture.urlencode Fixture.staging
       (Fixture.start Fixture.listed_fourth)).2 = Ok node
    /\ kwargs.name Fixture.staging = Some name
    /\ Node.name node = PyStr name.
Proof.
  pose (run := create_node Fixture.request Fixture.urlencode Fixture.staging
                 (Fixture.start Fixture.listed_fourth)).
  pose (node := match run.2 with Ok n => n | Raise _ => placeholder "" end).
  destruct (create_node_returns_requested_name Fixture.request Fixture.urlencode
              Fixture.staging (Fixture.start Fixture.listed_fourth) run.1 node)
    as (name & Hname & Hnode).
  - reflexivity.
  - exists node, name. split; [reflexivity|]. split; assumption.
Defined.

Lemma to_node_state_of_power_status_witness :
  exists n, _to_node Fixture.staging_1 = Ok n /\ Node.state n = StateEnum RUNNING.
Proof.
  pose (n := match _to_node Fixture.staging_1 with
             | Ok n => n
             | Raise _ => placeholder ""
             end).
  assert (Hn : _to_node Fixture.staging_1 = Ok n) by reflexivity.
  exists n. split; [exact Hn|].
  pose (d := {[ "name" := PyStr "staging-1";
                "id" := PyStr "999";
                "ipaddresses" := PyStr "198.51.100.7, 10.0.0.5";
                "power_status" := PyStr "on" ]} : gmap string pyval).
  change Fixture.staging_1 with (PyDict d) in Hn.
  apply (to_node_state_of_power_status d n Hn). reflexivity.
Defined.

Lemma to_node_keeps_every_address_witness :
  exists n pub priv,
    _to_node Fixture.staging_1 = Ok n
    /\ Node.public_ips n = PyList (PyStr <$> pub)
    /\ Node.private_ips n = PyList (PyStr <$> priv)
    /\ (length pub + length priv)%nat = 2%nat.
Proof.
  pose (n := match _to_node Fixture.staging_1 with
             | Ok n => n
             | Raise _ => placeholder ""
             end).
  assert (Hn : _to_node Fixture.staging_1 = Ok n) by reflexivity.
  pose (d := {[ "name" := PyStr "staging-1";
                "id" := PyStr "999";
                "ipaddresses" := PyStr "198.51.100.7, 10.0.0.5";
                "power_status" := PyStr "on" ]} : gmap string pyval).
  change Fixture.staging_1 with (PyDict d) in Hn.
  edestruct (to_node_keeps_every_address d "198.51.100.7, 10.0.0.5" n)
    as (pub & priv & Hpub & Hpriv & _ & Hlen); [| |exact Hn|].
  - reflexivity.
  - discriminate.
  - exists n, pub, priv. auto.
Defined.

Lemma list_nodes_in_order_witness :
  exists nodes values,
    (list_nodes Fixture.request
       (Fixture.start [Fixture.envelope
                         {[ "data" := PyList [Fixture.web_1; Fixture.staging_1] ]}])).2
    = Ok nodes
    /\ Forall2 (fun value node => _to_node value = Ok node) values nodes
    /\ length nodes = length values.
Proof.
  pose (e := Fixture.start [Fixture.envelope
                              {[ "data" := PyList [Fixture.web_1; Fixture.staging_1] ]}]).
  pose (nodes := match (list_nodes Fixture.request e).2 with
                 | Ok ns => ns
                 | Raise _ => []
                 end).
  destruct (list_nodes_in_order Fixture.request e (list_nodes Fixture.request e).1 nodes)
    as (resp & values & _ & _ & Hall & Hlen & _).
  - reflexivity.
  - exists nodes, values. split; [reflexivity|]. split; assumption.
Defined.

Lemma list_nodes_first_failure_witness :
  (list_nodes Fixture.request
     (Fixture.start [Fixture.envelope {[ "data" := PyList [Fixture.web_1; PyInt 5] ]}])).2
  = Raise (AttributeError "get").
Proof.
  pose (e := Fixture.start [Fixture.envelope
                              {[ "data" := PyList [Fixture.web_1; PyInt 5] ]}]).
  change ((list_nodes Fixture.request e).2 = Raise (AttributeError "get")).
  assert (Hbefore : Forall (fun v => exists node, _to_node v = Ok node) [Fixture.web_1])
    by (constructor; [eexists; reflexivity|constructor]).
  rewrite (list_nodes_first_failure Fixture.request e
             {| object := PyDict {[ "data" := PyList [Fixture.web_1; PyInt 5] ]} |}
             [Fixture.web_1] [] (PyInt 5) (AttributeError "get")
             eq_refl eq_refl Hbefore eq_refl).
  reflexivity.
Defined.

Lemma list_locations_in_order_witness :
  exists locations,
    (list_locations Fixture.request
       (Fixture.start [Fixture.envelope
                         {[ "data" := PyList [PyDict {[ "id" := PyInt 1 ]}] ]}])).2
    = Ok locations
    /\ Forall (fun loc => NodeLocation.country loc = "US") locations.
Proof.
  pose (e := Fixture.start [Fixture.envelope
                              {[ "data" := PyList [PyDict {[ "id" := PyInt 1 ]}] ]}]).
  pose (locations := match (list_locations Fixture.request e).2 with
                     | Ok ls => ls
                     | Raise _ => []
                     end).
  destruct (list_locations_in_order Fixture.request e
              (list_locations Fixture.request e).1 locations)
    as (resp & values & _ & _ & Hall).
  - reflexivity.
  - exists locations. split; [reflexivity|].
    clear -Hall. induction Hall as [|v loc vs ls (m & _ & _ & _ & Hc) _ IH];
      constructor; assumption.
Defined.

Lemma list_images_in_order_witness :
  exists images,
    (list_images Fixture.request
       (Fixture.start [Fixture.envelope
                         {[ "data" := PyList [PyDict {[ "friendly_name" := PyStr "Ubuntu";
                                                        "cores" := PyInt 2 ]}] ]}])).2
    = Ok images
    /\ Forall (fun img => NodeImage.extra img !! "password" = None) images.
Proof.
  pose (e := Fixture.start
               [Fixture.envelope
                  {[ "data" := PyList [PyDict {[ "friendly_name" := PyStr "Ubuntu";
                                                 "cores" := PyInt 2 ]}] ]}]).
  pose (images := match (list_images Fixture.request e).2 with
                  | Ok ls => ls
                  | Raise _ => []
                  end).
  destruct (list_images_in_order Fixture.request e
              (list_images Fixture.request e).1 images)
    as (resp & values & _ & _ & Hall).
  - reflexivity.
  - exists images. split; [reflexivity|].
    clear -Hall. induction Hall as [|v img vs ls (m & _ & _ & _ & Hextra) _ IH];
      constructor; [|assumption]. now rewrite Hextra.
Defined.

Lemma list_all_keys_filters_witness :
  (list_all_keys Fixture.request (Some 4)
     (Fixture.start
        [Fixture.envelope
           {[ "data" := PyList [PyDict {[ "id" := PyInt 70867; "key_group" := PyInt 1 ]};
                                PyDict {[ "id" := PyInt 70907; "key_group" := PyInt 4 ]};
                                PyDict {[ "id" := PyInt 70908 ]}] ]}])).2
  = Ok [PyDict {[ "id" := PyInt 70907; "key_group" := PyInt 4 ]}].
Proof.
  pose (keys := [PyDict {[ "id" := PyInt 70867; "key_group" := PyInt 1 ]};
                 PyDict {[ "id" := PyInt 70907; "key_group" := PyInt 4 ]};
                 PyDict {[ "id" := PyInt 70908 ]}]).
  pose (e := Fixture.start [Fixture.envelope {[ "data" := PyList keys ]}]).
  assert (Hmaps : Forall (fun key => is_mapping key = true) keys)
    by (repeat constructor).
  assert (Hg : 4 <> 0) by lia.
  exact (proj1 (list_all_keys_filters Fixture.request 4 e
                  {| object := PyDict {[ "data" := PyList keys ]} |} keys
                  Hg eq_refl eq_refl Hmaps)).
Defined.

Lemma key_listings_pass_through_witness :
  (list_all_keys Fixture.request (Some 0)
     (Fixture.start [Fixture.envelope {[ "data" := PyList [PyInt 5; PyNone] ]}])).2
  = Ok [PyInt 5; PyNone].
Proof.
  pose (e := Fixture.start [Fixture.envelope {[ "data" := PyList [PyInt 5; PyNone] ]}]).
  assert (Hkeys : values_of {| object := PyDict {[ "data" := PyList [PyInt 5; PyNone] ]} |}
                  = Ok [PyInt 5; PyNone]) by reflexivity.
  destruct (key_listings_pass_through Fixture.request e _ _ Hkeys) as (_ & _ & Hall).
  exact (proj2 (Hall eq_refl)).
Defined.

Lemma list_all_keys_filter_rejects_entry_witness :
  (list_all_keys Fixture.request (Some 4)
     (Fixture.start
        [Fixture.envelope
           {[ "data" := PyList [PyDict {[ "key_group" := PyInt 4 ]}; PyInt 5] ]}])).2
  = Raise (AttributeError "get").
Proof.
  pose (e := Fixture.start
               [Fixture.envelope
                  {[ "data" := PyList [PyDict {[ "key_group" := PyInt 4 ]}; PyInt 5] ]}]).
  assert (Hmaps : Forall (fun key => is_mapping key = true)
                    [PyDict {[ "key_group" := PyInt 4 ]}]) by (repeat constructor).
  assert (Hg : 4 <> 0) by lia.
  exact (proj1 (list_all_keys_filter_rejects_entry Fixture.request 4 e
                  {| object := PyDict {[ "data" :=
                       PyList [PyDict {[ "key_group" := PyInt 4 ]}; PyInt 5] ]} |}
                  [PyDict {[ "key_group" := PyInt 4 ]}] [] (PyInt 5)
                  Hg eq_refl eq_refl Hmaps eq_refl)).
Defined.

Lemma list_sizes_entries_witness :
  exists sizes,
    (list_sizes Fixture.request Fixture.str Z.ltb Fixture._get_size_price
       (Fixture.start Fixture.size_catalog)).2 = Ok sizes
    /\ Forall (fun size => NodeSize.bandwidth size = PyNone) sizes
    /\ length sizes = 4%nat.
Proof.
  pose (e := Fixture.start Fixture.size_catalog).
  pose (run := list_sizes Fixture.request Fixture.str Z.ltb Fixture._get_size_price e).
  pose (sizes := match run.2 with Ok l => l | Raise _ => [] end).
  destruct (list_sizes_entries Fixture.request Fixture.str Z.ltb Fixture._get_size_price
              e run.1 sizes) as (resp & values & _ & _ & _ & Hall).
  - reflexivity.
  - exists sizes. split; [reflexivity|]. split; [|reflexivity].
    eapply Forall_impl; [exact Hall|]. cbn. tauto.
Defined.

Lemma list_sizes_price_failure_witness :
  (list_sizes Fixture.request Fixture.str Z.ltb Fixture._get_size_price
     (Fixture.start
        [Fixture.envelope
           {[ "data" := PyList [Fixture.raw_size 7 "CS1"; Fixture.raw_size 99 "CS99"] ]}])).2
  = Raise (KeyError "99").
Proof.
  pose (e := Fixture.start
               [Fixture.envelope
                  {[ "data" := PyList [Fixture.raw_size 7 "CS1";
                                       Fixture.raw_size 99 "CS99"] ]}]).
  assert (Hbefore : Forall (fun v => exists size,
                              to_size Fixture.str Fixture._get_size_price v = Ok size)
                      [Fixture.raw_size 7 "CS1"])
    by (constructor; [eexists; reflexivity|constructor]).
  exact (list_sizes_price_failure Fixture.request Fixture.str Z.ltb
           Fixture._get_size_price e
           {| object := PyDict {[ "data" := PyList [Fixture.raw_size 7 "CS1";
                                                    Fixture.raw_size 99 "CS99"] ]} |}
           [Fixture.raw_size 7 "CS1"] []
           {[ "id" := PyInt 99; "friendly_name" := PyStr "CS99" ]}
           (KeyError "99") eq_refl eq_refl Hbefore eq_refl).
Defined.

Lemma list_sizes_keeps_sorted_catalog_witness :
  exists catalog,
    (list_sizes Fixture.request Fixture.str Z.ltb Fixture._get_size_price
       (Fixture.start
          [Fixture.envelope
             {[ "data" := PyList [Fixture.raw_size 7 "CS1";
                                  Fixture.raw_size 9 "CS1-SSD";
                                  Fixture.raw_size 5 "CS5"] ]}])).2
    = Ok catalog
    /\ NodeSize.name <$> catalog = [PyStr "CS1"; PyStr "CS1-SSD"; PyStr "CS5"].
Proof.
  pose (values := [Fixture.raw_size 7 "CS1"; Fixture.raw_size 9 "CS1-SSD";
                   Fixture.raw_size 5 "CS5"]).
  pose (e := Fixture.start [Fixture.envelope {[ "data" := PyList values ]}]).
  pose (catalog := match mapM_result (to_size Fixture.str Fixture._get_size_price) values with
                   | Ok l => l
                   | Raise _ => []
                   end).
  assert (Hsorted : StronglySorted (in_order Z.ltb NodeSize.price) catalog)
    by (repeat constructor).
  exists catalog. split; [|reflexivity].
  exact (list_sizes_keeps_sorted_catalog Fixture.request Fixture.str Z.ltb
           Fixture._get_size_price e
           {| object := PyDict {[ "data" := PyList values ]} |} values catalog
           eq_refl eq_refl eq_refl Hsorted).
Defined.

Lemma node_command_result_witness :
  let e := Fixture.start [Fixture.accepted] in
  trace (reboot_node Fixture.request Fixture.str Dice.web_1 e).1
  = [Requested (POST_empty "/server/cloud/7/initiator/restart/")]
  /\ trace (destroy_node Fixture.request Fixture.str Dice.web_1 e).1
     = [Requested (DELETE "/server/cloud/7/")]
  /\ trace (rename_node Fixture.request Fixture.urlencode Fixture.str Dice.web_1
              (PyStr "web-2") PyNone e).1
     = [Requested (PUT "/server/cloud/7/" "name=web-2")]
  /\ trace (rename_node Fixture.request Fixture.urlencode Fixture.str Dice.web_1
              (PyStr "web-2") (PyStr "web-2.example.com") e).1
     = [Requested (PUT "/server/cloud/7/" "name=web-2&hostname=web-2.example.com")]
  /\ exists d c,
       answers Fixture.request e (DELETE "/server/cloud/7/") d
       /\ d !! "response" = Some (PyInt c)
       /\ In c [200; 201; 202; 204].
Proof.
  intros e.
  destruct (node_command_result Fixture.request Fixture.urlencode Fixture.str
              Dice.web_1 (PyStr "web-2") PyNone e)
    as ((Hreboot & _) & _ & _ & (Hdestroy & _ & Hreturns) & (Hrename & _)).
  destruct (node_command_result Fixture.request Fixture.urlencode Fixture.str
              Dice.web_1 (PyStr "web-2") (PyStr "web-2.example.com") e)
    as (_ & _ & _ & _ & (Hhost & _)).
  split; [rewrite Hreboot; reflexivity|].
  split; [rewrite Hdestroy; reflexivity|].
  split; [rewrite Hrename; reflexivity|].
  split; [rewrite Hhost; reflexivity|].
  assert (Hb : (destroy_node Fixture.request Fixture.str Dice.web_1 e).2 = Ok true)
    by reflexivity.
  destruct (Hreturns true Hb) as (d & Ha & Hiff & _).
  destruct (proj1 Hiff eq_refl) as (c & Hc & Hin). exists d, c. auto.
Defined.

Lemma add_ssh_key_result_witness :
  (add_ssh_key Fixture.request Fixture.urlencode (PyStr "deploy") (PyStr "ssh-rsa AAAA")
     (PyInt 1)
     (Fixture.start [Fixture.envelope {[ "data" := PyDict {[ "id" := PyInt 71211 ]} ]}])).2
  = Ok (PyInt 71211).
Proof.
  pose (e := Fixture.start
               [Fixture.envelope {[ "data" := PyDict {[ "id" := PyInt 71211 ]} ]}]).
  change ((add_ssh_key Fixture.request Fixture.urlencode (PyStr "deploy")
             (PyStr "ssh-rsa AAAA") (PyInt 1) e).2 = Ok (PyInt 71211)).
  rewrite (add_ssh_key_result Fixture.request Fixture.urlencode (PyStr "deploy")
             (PyStr "ssh-rsa AAAA") (PyInt 1) e
             {[ "data" := PyDict {[ "id" := PyInt 71211 ]} ]} eq_refl).
  reflexivity.
Defined.

Lemma get_below_length (s : string) (i : nat) :
  (i < String.length s)%nat ->
  exists c, String.get i s = Some c /\ In c (chars_of s).
Proof.
  revert i. induction s as [|c s IH]; intros i Hi; cbn in Hi; [lia|].
  destruct i as [|i]; cbn.
  - exists c. auto.
  - destruct (IH i) as (c' & Hc' & Hin); [lia|]. exists c'. auto.
Qed.

Lemma Dice_draws_from_sequence : draws_from_sequence Dice.random_choice.
Proof.
  intros g chars Hchars.
  assert (Hpick : forall i, exists c, Dice.pick i chars = Ok c /\ In c (chars_of chars)).
  { intros i. unfold Dice.pick.
    destruct (get_below_length chars (i mod String.length chars)) as (c & -> & Hin).
    - apply Nat.mod_upper_bound. destruct chars; [congruence|discriminate].
    - eauto. }
  destruct g as [|i g]; apply Hpick.
Qed.

Lemma random_password_shape_witness :
  exists g' password,
    random_password Dice.random_choice 8 lowercase_and_digits [0; 1; 2; 35; 36; 37]%nat
    = (g', Ok password)
    /\ Z.of_nat (String.length password) = 8.
Proof.
  edestruct (random_password_shape Dice.random_choice 8 lowercase_and_digits
               [0; 1; 2; 35; 36; 37]%nat Dice_draws_from_sequence)
    as ((g' & password & Hrun & Hlen & _) & _).
  - discriminate.
  - exists g', password. split; [exact Hrun|exact Hlen].
Defined.

Lemma add_password_key_given_witness :
  add_password_key Fixture.request Fixture.urlencode Dice.random_choice
    (PyStr "console") (PyStr "s3cret") (PyInt 4) [3; 1; 4]%nat
    (Fixture.start [Fixture.envelope {[ "data" := PyDict {[ "id" := PyInt 71213 ]} ]}])
  = ([3; 1; 4]%nat,
     (after_request Fixture.request
        (POST "/key/password/"
           (Fixture.urlencode {[ "name" := PyStr "console"; "password" := PyStr "s3cret";
                                 "key_group" := PyInt 4 ]}))
        (Fixture.start
           [Fixture.envelope {[ "data" := PyDict {[ "id" := PyInt 71213 ]} ]}]),
      Ok (PyInt 71213))).
Proof.
  exact (add_password_key_given Fixture.request Fixture.urlencode Dice.random_choice
           (PyStr "console") (PyStr "s3cret") (PyInt 4) [3; 1; 4]%nat
           (Fixture.start
              [Fixture.envelope {[ "data" := PyDict {[ "id" := PyInt 71213 ]} ]}])
           {[ "data" := PyDict {[ "id" := PyInt 71213 ]} ]} eq_refl eq_refl).
Defined.

Lemma add_password_key_generated_witness :
  exists generated,
    String.length generated = 8%nat
    /\ trace (add_password_key Fixture.request Fixture.urlencode Dice.random_choice
                (PyStr "console") PyNone (PyInt 4) [3; 1; 4]%nat
                (Fixture.start [Fixture.accepted])).2.1
       = [Requested
            (POST "/key/password/"
               (Fixture.urlencode {[ "name" := PyStr "console";
                                     "password" := PyStr generated;
                                     "key_group" := PyInt 4 ]}))].
Proof.
  destruct (add_password_key_generated Fixture.request Fixture.urlencode
              Dice.random_choice (PyStr "console") PyNone (PyInt 4) [3; 1; 4]%nat
              (Fixture.start [Fixture.accepted]) Dice_draws_from_sequence eq_refl)
    as (generated & Hlen & _ & Htrace).
  exists generated. split; [exact Hlen|exact Htrace].
Defined.
